(** * MillisTaskManager (C port): task registry over an explicit heap

    Shallow embedding of [src/MillisTaskManager/c/MillisTaskManager.c].
    The registry is a singly linked list of heap-allocated [Task_t] nodes;
    [TaskManager_t] holds the [Head] and [Tail] pointers and is passed to
    every function BY VALUE.  The C code is modelled in a small
    state-and-fault monad over a heap of cells, with the [while(1)] loops
    driven by fuel. *)

From Stdlib Require Import ZArith NArith Lia.
From stdpp Require Import base option list gmap.

Module MillisTaskManager.

(** ** Data model *)

(** Pointers are addresses; the source defines [NULL] as 0. *)
Definition ptr := N.
Bind Scope N_scope with ptr.
Definition NULL : ptr := 0%N.

(** A task function is identified by its address. *)
Definition TaskFunction_t := N.
Bind Scope N_scope with TaskFunction_t.

(** The header is not among the sources: the fields are the ones the
    functions read and write ([task->Function], [task->Time], ...). *)
Record Task_t := mkTask {
  Function  : TaskFunction_t;
  Time      : Z;
  State     : bool;
  TimePrev  : Z;
  TimeCost  : Z;
  TimeError : Z;
  Next      : ptr
}.

Record TaskManager_t := mkManager {
  PriorityEnable : bool;
  Head : ptr;
  Tail : ptr
}.

Definition set_Function (v : TaskFunction_t) (t : Task_t) : Task_t :=
  mkTask v (Time t) (State t) (TimePrev t) (TimeCost t) (TimeError t) (Next t).
Definition set_Time (v : Z) (t : Task_t) : Task_t :=
  mkTask (Function t) v (State t) (TimePrev t) (TimeCost t) (TimeError t) (Next t).
Definition set_State (v : bool) (t : Task_t) : Task_t :=
  mkTask (Function t) (Time t) v (TimePrev t) (TimeCost t) (TimeError t) (Next t).
Definition set_TimePrev (v : Z) (t : Task_t) : Task_t :=
  mkTask (Function t) (Time t) (State t) v (TimeCost t) (TimeError t) (Next t).
Definition set_TimeCost (v : Z) (t : Task_t) : Task_t :=
  mkTask (Function t) (Time t) (State t) (TimePrev t) v (TimeError t) (Next t).
Definition set_TimeError (v : Z) (t : Task_t) : Task_t :=
  mkTask (Function t) (Time t) (State t) (TimePrev t) (TimeCost t) v (Next t).
Definition set_Next (v : ptr) (t : Task_t) : Task_t :=
  mkTask (Function t) (Time t) (State t) (TimePrev t) (TimeCost t) (TimeError t) v.

Definition set_PriorityEnable (v : bool) (r : TaskManager_t) : TaskManager_t :=
  mkManager v (Head r) (Tail r).
Definition set_Head (v : ptr) (r : TaskManager_t) : TaskManager_t :=
  mkManager (PriorityEnable r) v (Tail r).
Definition set_Tail (v : ptr) (r : TaskManager_t) : TaskManager_t :=
  mkManager (PriorityEnable r) (Head r) v.

(** The range of [uint32_t], the type of the [timeMs] parameter. *)
Definition uint32 (z : Z) : Prop := (0 <= z < 2 ^ 32)%Z.

(** ** Heap *)

(** A cell is a live [Task_t] block or a block that [free] released. *)
Inductive cell :=
  | Live (t : Task_t)
  | Freed.

Abbreviation mem := (gmap N cell).

Inductive fault :=
  | NullDeref       (* access through NULL *)
  | UseAfterFree    (* access to a block after free *)
  | WildPointer     (* access to an address never allocated *)
  | DoubleFree.

Inductive outcome (A : Type) :=
  | Ok (a : A) (m : mem)
  | Fault (f : fault)
  | OutOfFuel.
Arguments Ok {A} a m.
Arguments Fault {A} f.
Arguments OutOfFuel {A}.

(** Computations: heap in, value and heap (or a fault) out. *)
Definition M (A : Type) := mem -> outcome A.

Definition ret {A} (a : A) : M A := fun m => Ok a m.
Definition bind {A B} (c : M A) (k : A -> M B) : M B :=
  fun m => match c m with
           | Ok a m' => k a m'
           | Fault f => Fault f
           | OutOfFuel => OutOfFuel
           end.
Definition out_of_fuel {A} : M A := fun _ => OutOfFuel.

Declare Scope task_scope.
Delimit Scope task_scope with task.
Notation "'let*' x ':=' c 'in' k" := (bind c (fun x => k))
  (at level 10, x name, c at level 100, k at level 200) : task_scope.
Notation "c ';;;' k" := (bind c (fun _ => k))
  (at level 100, k at level 200, right associativity) : task_scope.
Local Open Scope task_scope.

(** [*p] as an rvalue. *)
Definition load (p : ptr) : M Task_t :=
  fun m =>
    if decide (p = NULL) then Fault NullDeref
    else match m !! p with
         | Some (Live t) => Ok t m
         | Some Freed => Fault UseAfterFree
         | None => Fault WildPointer
         end.

(** [p->field = v]: one field of a live block is overwritten. *)
Definition modify (p : ptr) (f : Task_t -> Task_t) : M unit :=
  let* t := load p in fun m => Ok tt (<[p := Live (f t)]> m).

(** [free(p)]; [free(NULL)] does nothing. *)
Definition free (p : ptr) : M unit :=
  fun m =>
    if decide (p = NULL) then Ok tt m
    else match m !! p with
         | Some (Live _) => Ok tt (<[p := Freed]> m)
         | Some Freed => Fault DoubleFree
         | None => Fault WildPointer
         end.

(** ** The functions of MillisTaskManager.c *)

Definition ManagerCreate (TaskManager : TaskManager_t) (priorityEnable : bool)
  : TaskManager_t :=
  let TaskManager := set_PriorityEnable priorityEnable TaskManager in
  let TaskManager := set_Head NULL TaskManager in
  let TaskManager := set_Tail NULL TaskManager in
  TaskManager.

(** The loop of [ManagerDelete]: cache the node, step to its successor,
    then release the cached node. *)
Fixpoint ManagerDelete_loop (fuel : nat) (now : ptr) : M unit :=
  match fuel with
  | O => out_of_fuel
  | S fuel' =>
      if decide (now = NULL) then ret tt
      else
        let now_del := now in
        let* t := load now in
        let now := Next t in
        free now_del ;;;
        ManagerDelete_loop fuel' now
  end.

Definition ManagerDelete (fuel : nat) (TaskManager : TaskManager_t) : M unit :=
  ManagerDelete_loop fuel (Head TaskManager).

Fixpoint TaskFind_loop (fuel : nat) (func : TaskFunction_t) (now : ptr) : M ptr :=
  match fuel with
  | O => out_of_fuel
  | S fuel' =>
      if decide (now = NULL) then ret NULL
      else
        let* t := load now in
        if decide (Function t = func) then ret now
        else TaskFind_loop fuel' func (Next t)
  end.

Definition TaskFind (fuel : nat) (TaskManager : TaskManager_t)
    (func : TaskFunction_t) : M ptr :=
  TaskFind_loop fuel func (Head TaskManager).

Fixpoint GetPrev_loop (fuel : nat) (task : ptr) (now prev : ptr) : M ptr :=
  match fuel with
  | O => out_of_fuel
  | S fuel' =>
      if decide (now = NULL) then ret NULL
      else if decide (now = task) then ret prev
      else
        let* t := load now in
        GetPrev_loop fuel' task (Next t) now
  end.

Definition GetPrev (fuel : nat) (TaskManager : TaskManager_t) (task : ptr) : M ptr :=
  GetPrev_loop fuel task (Head TaskManager) NULL.

(** [TaskLogout] has an empty body: it touches nothing and reaches the
    closing brace without a [return], so it yields no value. *)
Definition TaskLogout (func : TaskFunction_t) : M (option bool) :=
  ret None.

Section Allocator.

(** [malloc] is the C library's: the address it hands out for a heap (or
    [NULL]), and the indeterminate contents of a fresh block. *)
Variable malloc : mem -> ptr.
Variable uninit : mem -> Task_t.

Definition alloc : M ptr :=
  fun m =>
    let p := malloc m in
    if decide (p = NULL) then Ok NULL m
    else Ok p (<[p := Live (uninit m)]> m).

(** [TaskRegister], returning next to the result the final value of its
    own copy of the [TaskManager] parameter.  The source declares [task] a
    second time where it calls [malloc]; it is read as an assignment to the
    variable declared for the result of [TaskFind]. *)
Definition TaskRegister_body (fuel : nat) (TaskManager : TaskManager_t)
    (func : TaskFunction_t) (timeMs : Z) (state : bool)
  : M (ptr * TaskManager_t) :=
  let* task := TaskFind fuel TaskManager func in
  if decide (task <> NULL) then
    modify task (set_Time timeMs) ;;;
    modify task (set_State state) ;;;
    ret (task, TaskManager)
  else
    let* task := alloc in
    if decide (task = NULL) then ret (NULL, TaskManager)
    else
      modify task (set_Function func) ;;;
      modify task (set_Time timeMs) ;;;
      modify task (set_State state) ;;;
      modify task (set_TimePrev 0) ;;;
      modify task (set_TimeCost 0) ;;;
      modify task (set_TimeError 0) ;;;
      modify task (set_Next NULL) ;;;
      let* TaskManager :=
        (if decide (Head TaskManager = NULL)
         then ret (set_Head task TaskManager)
         else modify (Tail TaskManager) (set_Next task) ;;; ret TaskManager) in
      let TaskManager := set_Tail task TaskManager in
      ret (task, TaskManager).

(** What the caller of [TaskRegister] gets: the pointer alone.  The
    parameter was a copy, so the caller's [TaskManager_t] is the value it
    passed in. *)
Definition TaskRegister (fuel : nat) (TaskManager : TaskManager_t)
    (func : TaskFunction_t) (timeMs : Z) (state : bool) : M ptr :=
  let* r := TaskRegister_body fuel TaskManager func timeMs state in
  ret (fst r).

End Allocator.

(** [malloc] never hands out a block that is still live. *)
Definition malloc_fresh (malloc : mem -> ptr) (m : mem) : Prop :=
  malloc m <> NULL -> forall t, m !! malloc m <> Some (Live t).

(** ** The registry as a sequence *)

(** [chain m p l]: following [Next] from [p] in heap [m] visits exactly the
    live nodes [l], in this order, and then reaches [NULL].  A registry with
    such a chain from its [Head] is finite and acyclic; [length l] is its
    size. *)
Fixpoint chain (m : mem) (p : ptr) (l : list ptr) : Prop :=
  match l with
  | [] => p = NULL
  | q :: l' =>
      p = q /\ p <> NULL /\
      exists t, m !! p = Some (Live t) /\ chain m (Next t) l'
  end.

(** The same walk as a function, for heaps given explicitly. *)
Fixpoint walk (fuel : nat) (m : mem) (p : ptr) : option (list ptr) :=
  match fuel with
  | O => None
  | S fuel' =>
      if decide (p = NULL) then Some []
      else match m !! p with
           | Some (Live t) => cons p <$> walk fuel' m (Next t)
           | _ => None
           end
  end.

Definition task_at (m : mem) (p : ptr) : option Task_t :=
  match m !! p with
  | Some (Live t) => Some t
  | _ => None
  end.

(** The function identities of the nodes [l], in order. *)
Definition funcs (m : mem) (l : list ptr) : list TaskFunction_t :=
  omap (fun p => Function <$> task_at m p) l.

(** The first node of [l] whose [Function] is [func], or [NULL]. *)
Fixpoint first_match (m : mem) (func : TaskFunction_t) (l : list ptr) : ptr :=
  match l with
  | [] => NULL
  | q :: l' =>
      match task_at m q with
      | Some t => if decide (Function t = func) then q else first_match m func l'
      | None => NULL
      end
  end.

(** [Tail] designates the last node of a non-empty sequence. *)
Definition tail_ok (r : TaskManager_t) (l : list ptr) : Prop :=
  l <> [] -> last l = Some (Tail r).

(** ** Teardown as the specification describes the source *)

(** The specification's account of the source's destructor: the node is
    released first and its successor link is read afterwards.  Kept next to
    [ManagerDelete_loop], which is the loop the source has. *)
Fixpoint ManagerDelete_described_loop (fuel : nat) (now : ptr) : M unit :=
  match fuel with
  | O => out_of_fuel
  | S fuel' =>
      if decide (now = NULL) then ret tt
      else
        free now ;;;
        let* t := load now in
        ManagerDelete_described_loop fuel' (Next t)
  end.

Definition ManagerDelete_described (fuel : nat) (TaskManager : TaskManager_t)
  : M unit :=
  ManagerDelete_described_loop fuel (Head TaskManager).

(** ** Dispatcher *)

Section Dispatcher.

(** Modelled from the spec: the measured duration of a task body, which the
    dispatcher records in [last_cost_ms]; task bodies and the clock are
    external. *)
Variable body_cost : TaskFunction_t -> Z -> Z.

(** Modelled from the spec: [clamp] of section 4.2, step 3; no dispatcher is
    among the sources. *)
Definition clamp (x lo hi : Z) : Z := Z.max lo (Z.min x hi).

(** Modelled from the spec: [elapsed = now_tick - last_fire_tick]
    (section 4.2, step 2), with [TimePrev] as [last_fire_tick]. *)
Definition elapsed (now_tick : Z) (t : Task_t) : Z := (now_tick - TimePrev t)%Z.

(** Modelled from the spec: an enabled task is due when
    [elapsed + drift_ms >= interval_ms] (section 4.2, step 2), with
    [TimeError] as [drift_ms] and [Time] as [interval_ms]. *)
Definition due (now_tick : Z) (t : Task_t) : bool :=
  State t && (Time t <=? elapsed now_tick t + TimeError t)%Z.

(** Modelled from the spec: the state change of a firing (section 4.2,
    step 3): record the cost, set the drift to the clamped overrun and the
    last fire tick to [now_tick]. *)
Definition fire (now_tick : Z) (t : Task_t) : Task_t :=
  let overrun := (elapsed now_tick t - Time t)%Z in
  set_TimePrev now_tick
    (set_TimeError (clamp overrun (- Time t) (Time t))
       (set_TimeCost (body_cost (Function t) now_tick) t)).

(** Modelled from the spec: the dispatcher's [run] (section 4.2), absent
    from the sources.  It visits the tasks in sequence order and returns the
    nodes whose body it invoked, in invocation order.  Task bodies are
    opaque; they are taken not to touch the registry. *)
Fixpoint run_loop (fuel : nat) (now_tick : Z) (now : ptr) : M (list ptr) :=
  match fuel with
  | O => out_of_fuel
  | S fuel' =>
      if decide (now = NULL) then ret []
      else
        let* t := load now in
        if due now_tick t then
          modify now (fire now_tick) ;;;
          let* fired := run_loop fuel' now_tick (Next t) in
          ret (now :: fired)
        else run_loop fuel' now_tick (Next t)
  end.

(** Modelled from the spec: [run(registry, now_tick)], absent from the
    sources. *)
Definition run (fuel : nat) (TaskManager : TaskManager_t) (now_tick : Z)
  : M (list ptr) :=
  run_loop fuel now_tick (Head TaskManager).

(** Modelled from the spec: the host invoking [run] repeatedly
    (section 4.2), once for each tick of [ticks] in order; the result lists
    what each invocation fired. *)
Fixpoint run_ticks (fuel : nat) (TaskManager : TaskManager_t) (ticks : list Z)
  : M (list (list ptr)) :=
  match ticks with
  | [] => ret []
  | now_tick :: rest =>
      let* fired := run fuel TaskManager now_tick in
      let* more := run_ticks fuel TaskManager rest in
      ret (fired :: more)
  end.

End Dispatcher.

(** ** What the loops compute on a chain *)

(** The heap after [free] of every node of [l], first to last. *)
Definition release (l : list ptr) (m : mem) : mem :=
  foldl (fun m q => <[q := Freed]> m) m l.

(** The node before [task] in [l], [prev] if [task] comes first, [NULL] if
    [task] is not in [l]. *)
Fixpoint prev_in (task prev : ptr) (l : list ptr) : ptr :=
  match l with
  | [] => NULL
  | q :: l' => if decide (q = task) then prev else prev_in task q l'
  end.

(** Whether the node at [q] holds a task that is due at [now_tick]. *)
Definition is_due (now_tick : Z) (m : mem) (q : ptr) : bool :=
  match task_at m q with
  | Some t => due now_tick t
  | None => false
  end.

(** ** Sample registries *)

Definition sample_task (func : TaskFunction_t) (next : ptr) : Task_t :=
  mkTask func 10%Z true 0%Z 0%Z 0%Z next.

(** One node at address 1. *)
Definition heap1 : mem := {[ 1%N := Live (sample_task 5 NULL) ]}.
Definition reg1 : TaskManager_t := mkManager false 1 1.

(** Two nodes, 1 then 2. *)
Definition heap2 : mem :=
  <[ 1%N := Live (sample_task 5 2) ]> {[ 2%N := Live (sample_task 6 NULL) ]}.
Definition reg2 : TaskManager_t := mkManager false 1 2.

(** The registry [ManagerCreate] returns, over an empty heap. *)
Definition reg0 : TaskManager_t := ManagerCreate (mkManager true 9 9) false.

(** An allocator that hands out address 3, one that is exhausted, and the
    contents of a fresh block. *)
Definition malloc3 : mem -> ptr := fun _ => 3%N.
Definition malloc_fails : mem -> ptr := fun _ => NULL.
Definition junk : mem -> Task_t := fun _ => mkTask 99 (-1)%Z false 77%Z 88%Z (-5)%Z 42.

(** A body that always takes 2 ms. *)
Definition cost2 : TaskFunction_t -> Z -> Z := fun _ _ => 2%Z.

(** ** Callers and further sample heaps *)

(** A caller that registers [calls] one after the other on the registry
    value it holds, collecting the handles. *)
Fixpoint register_all (malloc : mem -> ptr) (uninit : mem -> Task_t)
    (fuel : nat) (TaskManager : TaskManager_t)
    (calls : list (TaskFunction_t * Z * bool)) : M (list ptr) :=
  match calls with
  | [] => ret []
  | (func, timeMs, state) :: rest =>
      let* task := TaskRegister malloc uninit fuel TaskManager func timeMs state in
      let* tasks := register_all malloc uninit fuel TaskManager rest in
      ret (task :: tasks)
  end.

(** [segment m p l q]: following [Next] from [p] visits the live nodes [l]
    and then stands at [q], which need not be [NULL]. *)
Fixpoint segment (m : mem) (p : ptr) (l : list ptr) (q : ptr) : Prop :=
  match l with
  | [] => p = q
  | a :: l' =>
      p = a /\ p <> NULL /\
      exists t, m !! p = Some (Live t) /\ segment m (Next t) l' q
  end.

(** Two nodes in a cycle: 1, then 2, then 1 again. *)
Definition heap_cycle : mem :=
  <[ 1%N := Live (sample_task 5 2) ]> {[ 2%N := Live (sample_task 6 1) ]}.

(** An allocator that hands out address 3, then address 4. *)
Definition malloc34 : mem -> ptr :=
  fun m => match m !! 3%N with
           | Some (Live _) => 4%N
           | _ => 3%N
           end.

End MillisTaskManager.

(** * Properties *)

Module Facts.
Import MillisTaskManager.
Local Open Scope task_scope.

(** ** The monad *)

Lemma bind_Ok {A B} (c : M A) (k : A -> M B) m a m' :
  c m = Ok a m' -> bind c k m = k a m'.
Proof. unfold bind. intros ->. reflexivity. Qed.

Lemma load_live p t (m : mem) :
  p <> NULL -> m !! p = Some (Live t) -> load p m = Ok t m.
Proof.
  intros Hp Hm. unfold load. destruct (decide (p = NULL)); [done|].
  by rewrite Hm.
Qed.

Lemma modify_live p f t (m : mem) :
  p <> NULL -> m !! p = Some (Live t) ->
  modify p f m = Ok tt (<[p := Live (f t)]> m).
Proof.
  intros Hp Hm. unfold modify.
  by rewrite (bind_Ok _ _ _ _ _ (load_live p t m Hp Hm)).
Qed.

Lemma modify_insert p f t (m : mem) :
  p <> NULL ->
  modify p f (<[p := Live t]> m) = Ok tt (<[p := Live (f t)]> m).
Proof.
  intros Hp. rewrite (modify_live p f t); [|done|apply lookup_insert_eq].
  by rewrite insert_insert_eq.
Qed.

Lemma free_live p t (m : mem) :
  p <> NULL -> m !! p = Some (Live t) -> free p m = Ok tt (<[p := Freed]> m).
Proof.
  intros Hp Hm. unfold free. destruct (decide (p = NULL)); [done|].
  by rewrite Hm.
Qed.

(** ** Chains *)

(** [ManagerCreate] returns an empty registry, whatever it was given. *)
Lemma ManagerCreate_empty r priorityEnable (m : mem) :
  Head (ManagerCreate r priorityEnable) = NULL /\
  Tail (ManagerCreate r priorityEnable) = NULL /\
  PriorityEnable (ManagerCreate r priorityEnable) = priorityEnable /\
  chain m (Head (ManagerCreate r priorityEnable)) [].
Proof. by repeat split. Qed.

Lemma chain_null (m : mem) l : chain m NULL l -> l = [].
Proof. destruct l as [|q l]; [done|]. intros (_ & Hn & _). done. Qed.

Lemma chain_head (m : mem) p l : chain m p l -> p <> NULL -> exists l', l = p :: l'.
Proof.
  destruct l as [|q l]; simpl; [done|]. intros (-> & _) _. by exists l.
Qed.

Lemma chain_live (m : mem) p l q :
  chain m p l -> q ∈ l -> q <> NULL /\ exists t, m !! q = Some (Live t).
Proof.
  revert p. induction l as [|a l IH]; intros p Hc Hq.
  - by apply elem_of_nil in Hq.
  - destruct Hc as (-> & Hn & t & Ht & Hc).
    apply elem_of_cons in Hq as [->|Hq]; [eauto|]. eapply IH; eauto.
Qed.

Lemma chain_functional (m : mem) p l1 l2 :
  chain m p l1 -> chain m p l2 -> l1 = l2.
Proof.
  revert p l2. induction l1 as [|a l1 IH]; intros p l2 H1 H2.
  - simpl in H1. subst p. by apply chain_null in H2.
  - destruct H1 as (-> & Hn & t & Ht & H1).
    destruct l2 as [|b l2]; [done|].
    destruct H2 as (<- & _ & t' & Ht' & H2).
    rewrite Ht in Ht'. injection Ht' as <-. f_equal. eauto.
Qed.

Lemma chain_suffix (m : mem) p l q :
  chain m p l -> q ∈ l -> exists l1 l2, l = l1 ++ q :: l2 /\ chain m q (q :: l2).
Proof.
  revert p. induction l as [|a l IH]; intros p Hc Hq.
  - by apply elem_of_nil in Hq.
  - destruct (decide (q = a)) as [->|Hne].
    + exists [], l. split; [done|]. destruct Hc as (-> & Hc). by split.
    + apply elem_of_cons in Hq as [?|Hq]; [done|].
      destruct Hc as (-> & Hn & t & Ht & Hc).
      destruct (IH _ Hc Hq) as (l1 & l2 & -> & Hs).
      by exists (a :: l1), l2.
Qed.

Lemma chain_NoDup (m : mem) p l : chain m p l -> NoDup l.
Proof.
  revert p. induction l as [|a l IH]; intros p Hc; [constructor|].
  pose proof Hc as Hc0.
  destruct Hc as (-> & Hn & t & Ht & Hc).
  constructor; [|eauto].
  intros Hin. destruct (chain_suffix _ _ _ _ Hc Hin) as (l1 & l2 & El & Hs).
  pose proof (chain_functional _ _ _ _ Hs Hc0) as E.
  injection E as E. apply (f_equal length) in El.
  rewrite length_app in El. simpl in El. subst l2. lia.
Qed.

(** A heap that keeps the nodes of a chain live with their [Next] links
    keeps the chain. *)
Lemma chain_agree (m m' : mem) p l :
  chain m p l ->
  (forall q t, q ∈ l -> m !! q = Some (Live t) ->
     exists t', m' !! q = Some (Live t') /\ Next t' = Next t) ->
  chain m' p l.
Proof.
  revert p. induction l as [|a l IH]; intros p Hc Hag; [done|].
  destruct Hc as (-> & Hn & t & Ht & Hc).
  destruct (Hag a t) as (t' & Ht' & En); [left|done|].
  split; [done|]. split; [done|]. exists t'. split; [done|].
  rewrite En. apply IH; [done|].
  intros q tq Hq. apply Hag. by right.
Qed.

Lemma chain_insert_other (m : mem) p l q c :
  chain m p l -> q ∉ l -> chain (<[q := c]> m) p l.
Proof.
  intros Hc Hq. eapply chain_agree; [done|].
  intros a t Ha Ht. exists t. split; [|done].
  rewrite lookup_insert_ne; [done|]. intros ->. done.
Qed.

Lemma chain_walk (m : mem) p l fuel :
  chain m p l -> length l < fuel -> walk fuel m p = Some l.
Proof.
  revert p fuel. induction l as [|a l IH]; intros p fuel Hc Hf.
  - simpl in Hc. subst. destruct fuel; [simpl in Hf; lia|]. done.
  - destruct Hc as (-> & Hn & t & Ht & Hc).
    destruct fuel as [|fuel]; [simpl in Hf; lia|]. simpl.
    destruct (decide (a = NULL)); [done|]. rewrite Ht.
    rewrite (IH _ fuel Hc); [done|]. simpl in Hf. lia.
Qed.

Lemma walk_chain (m : mem) p l fuel :
  walk fuel m p = Some l -> chain m p l.
Proof.
  revert p l. induction fuel as [|fuel IH]; intros p l; simpl; [done|].
  destruct (decide (p = NULL)) as [->|Hn].
  - by intros [= <-].
  - destruct (m !! p) as [[t|]|] eqn:Ht; try done.
    destruct (walk fuel m (Next t)) as [l'|] eqn:Hw; simpl; [|done].
    intros [= <-]. split; [done|]. split; [done|]. exists t. eauto.
Qed.

(** ** Traversals *)

Lemma funcs_elem (m : mem) l func :
  func ∈ funcs m l <->
  exists q t, q ∈ l /\ m !! q = Some (Live t) /\ Function t = func.
Proof.
  unfold funcs. rewrite list_elem_of_omap. unfold task_at. split.
  - intros (q & Hq & E). destruct (m !! q) as [[t|]|] eqn:Ht; try done.
    simpl in E. injection E as <-. eauto.
  - intros (q & t & Hq & Ht & <-). exists q. by rewrite Ht.
Qed.

Lemma funcs_agree (m m' : mem) l :
  (forall q, q ∈ l -> Function <$> task_at m' q = Function <$> task_at m q) ->
  funcs m' l = funcs m l.
Proof.
  unfold funcs. induction l as [|a l IH]; intros H; [done|].
  cbn [omap list_omap]. rewrite (H a); [|left].
  fold (omap (fun p => Function <$> task_at m' p) l).
  fold (omap (fun p => Function <$> task_at m p) l).
  rewrite IH; [done|].
  intros q Hq. apply H. by right.
Qed.

Lemma first_match_found (m : mem) p l func :
  chain m p l -> func ∈ funcs m l ->
  first_match m func l ∈ l /\ first_match m func l <> NULL /\
  exists t, m !! first_match m func l = Some (Live t) /\ Function t = func.
Proof.
  revert p. induction l as [|a l IH]; intros p Hc Hin.
  - apply funcs_elem in Hin as (q & t & Hq & _). by apply elem_of_nil in Hq.
  - destruct Hc as (-> & Hn & t & Ht & Hc). simpl. unfold task_at. rewrite Ht.
    destruct (decide (Function t = func)) as [E|E].
    + split; [left|]. eauto.
    + apply funcs_elem in Hin as (q & tq & Hq & Htq & Ef).
      apply elem_of_cons in Hq as [->|Hq]; [congruence|].
      destruct (IH _ Hc) as (H1 & H2 & H3).
      * apply funcs_elem. eauto.
      * split; [by right|]. eauto.
Qed.

Lemma first_match_absent (m : mem) p l func :
  chain m p l -> func ∉ funcs m l -> first_match m func l = NULL.
Proof.
  revert p. induction l as [|a l IH]; intros p Hc Hin; [done|].
  destruct Hc as (-> & Hn & t & Ht & Hc). simpl. unfold task_at. rewrite Ht.
  destruct (decide (Function t = func)) as [E|E].
  - exfalso. apply Hin, funcs_elem. exists a, t. split; [left|done].
  - eapply IH; [done|]. intros Hf. apply Hin.
    apply funcs_elem in Hf as (q & tq & Hq & Htq & Ef).
    apply funcs_elem. exists q, tq. split; [by right|done].
Qed.

Lemma TaskFind_loop_chain (m : mem) func p l fuel :
  chain m p l -> length l < fuel ->
  TaskFind_loop fuel func p m = Ok (first_match m func l) m.
Proof.
  revert p fuel. induction l as [|a l IH]; intros p fuel Hc Hf.
  - simpl in Hc. subst. destruct fuel; [simpl in Hf; lia|]. done.
  - destruct Hc as (-> & Hn & t & Ht & Hc).
    destruct fuel as [|fuel]; [simpl in Hf; lia|]. simpl.
    destruct (decide (a = NULL)); [done|].
    rewrite (bind_Ok _ _ _ _ _ (load_live a t m Hn Ht)).
    unfold task_at. rewrite Ht.
    destruct (decide (Function t = func)); [done|].
    apply IH; [done|]. simpl in Hf. lia.
Qed.

Lemma GetPrev_loop_chain (m : mem) task p prev l fuel :
  chain m p l -> length l < fuel ->
  GetPrev_loop fuel task p prev m = Ok (prev_in task prev l) m.
Proof.
  revert p prev fuel. induction l as [|a l IH]; intros p prev fuel Hc Hf.
  - simpl in Hc. subst. destruct fuel; [simpl in Hf; lia|]. done.
  - destruct Hc as (-> & Hn & t & Ht & Hc).
    destruct fuel as [|fuel]; [simpl in Hf; lia|]. simpl.
    destruct (decide (a = NULL)); [done|].
    destruct (decide (a = task)); [done|].
    rewrite (bind_Ok _ _ _ _ _ (load_live a t m Hn Ht)).
    apply IH; [done|]. simpl in Hf. lia.
Qed.

Lemma release_cons q l (m : mem) :
  release (q :: l) m = release l (<[q := Freed]> m).
Proof. reflexivity. Qed.

Lemma release_lookup_other l (m : mem) q :
  q ∉ l -> release l m !! q = m !! q.
Proof.
  revert m. induction l as [|a l IH]; intros m Hq; [done|].
  rewrite release_cons, IH.
  - apply lookup_insert_ne. intros ->. apply Hq. left.
  - intros H. apply Hq. by right.
Qed.

Lemma release_lookup l (m : mem) q :
  q ∈ l -> release l m !! q = Some Freed.
Proof.
  revert m. induction l as [|a l IH]; intros m Hq.
  - by apply elem_of_nil in Hq.
  - rewrite release_cons. destruct (decide (q ∈ l)) as [Hl|Hl]; [by apply IH|].
    apply elem_of_cons in Hq as [->|Hq]; [|done].
    rewrite release_lookup_other; [|done]. apply lookup_insert_eq.
Qed.

Lemma ManagerDelete_loop_chain (m : mem) p l fuel :
  chain m p l -> length l < fuel ->
  ManagerDelete_loop fuel p m = Ok tt (release l m).
Proof.
  revert p m fuel. induction l as [|a l IH]; intros p m fuel Hc Hf.
  - simpl in Hc. subst. destruct fuel; [simpl in Hf; lia|]. done.
  - pose proof (chain_NoDup _ _ _ Hc) as Hnd. apply NoDup_cons in Hnd as [Ha _].
    destruct Hc as (-> & Hn & t & Ht & Hc).
    destruct fuel as [|fuel]; [simpl in Hf; lia|]. cbn [ManagerDelete_loop].
    destruct (decide (a = NULL)); [done|].
    rewrite (bind_Ok _ _ _ _ _ (load_live a t m Hn Ht)).
    rewrite (bind_Ok _ _ _ _ _ (free_live a t m Hn Ht)).
    rewrite release_cons. apply IH; [|simpl in Hf; lia].
    by apply chain_insert_other.
Qed.

(** The loop as the specification describes it stops at its first node:
    the read that follows [free] hits the released block. *)
Lemma ManagerDelete_described_loop_faults (m : mem) p l fuel :
  chain m p l -> l <> [] ->
  ManagerDelete_described_loop (S fuel) p m = Fault UseAfterFree.
Proof.
  intros Hc Hl. destruct l as [|a l]; [done|].
  destruct Hc as (-> & Hn & t & Ht & Hc). simpl.
  destruct (decide (a = NULL)); [done|].
  rewrite (bind_Ok _ _ _ _ _ (free_live a t m Hn Ht)).
  unfold bind, load. destruct (decide (a = NULL)); [done|].
  by rewrite lookup_insert_eq.
Qed.

(** ** Registration *)

Section Register.

Variable malloc : mem -> ptr.
Variable uninit : mem -> Task_t.

Lemma TaskFind_chain (m : mem) r l func fuel :
  chain m (Head r) l -> length l < fuel ->
  TaskFind fuel r func m = Ok (first_match m func l) m.
Proof. apply TaskFind_loop_chain. Qed.

(** The update path: the identity is registered. *)
Lemma TaskRegister_body_found (m : mem) r l func timeMs state fuel t :
  chain m (Head r) l -> length l < fuel ->
  first_match m func l <> NULL ->
  m !! first_match m func l = Some (Live t) ->
  TaskRegister_body malloc uninit fuel r func timeMs state m
  = Ok (first_match m func l, r)
       (<[first_match m func l := Live (set_State state (set_Time timeMs t))]> m).
Proof.
  intros Hc Hf Hn Ht. unfold TaskRegister_body.
  rewrite (bind_Ok _ _ _ _ _ (TaskFind_chain m r l func fuel Hc Hf)).
  destruct (decide (first_match m func l <> NULL)); [|done].
  rewrite (bind_Ok _ _ _ _ _ (modify_live _ (set_Time timeMs) t m Hn Ht)).
  by rewrite (bind_Ok _ _ _ _ _ (modify_insert _ (set_State state) _ m Hn)).
Qed.

Lemma alloc_fails (m : mem) :
  malloc m = NULL -> alloc malloc uninit m = Ok NULL m.
Proof. intros H. unfold alloc. rewrite H. by destruct (decide (NULL = NULL)). Qed.

Lemma alloc_succeeds (m : mem) :
  malloc m <> NULL ->
  alloc malloc uninit m = Ok (malloc m) (<[malloc m := Live (uninit m)]> m).
Proof. intros H. unfold alloc. by destruct (decide (malloc m = NULL)). Qed.

(** The allocation fails. *)
Lemma TaskRegister_body_oom (m : mem) r l func timeMs state fuel :
  chain m (Head r) l -> length l < fuel ->
  first_match m func l = NULL -> malloc m = NULL ->
  TaskRegister_body malloc uninit fuel r func timeMs state m = Ok (NULL, r) m.
Proof.
  intros Hc Hf Hn Hm. unfold TaskRegister_body.
  rewrite (bind_Ok _ _ _ _ _ (TaskFind_chain m r l func fuel Hc Hf)).
  rewrite Hn. destruct (decide (NULL <> NULL)); [done|].
  rewrite (bind_Ok _ _ _ _ _ (alloc_fails m Hm)).
  by destruct (decide (NULL = NULL)).
Qed.

(** The seven field writes on the fresh block. *)
Lemma init_new_task p func timeMs state t0 (m : mem) (k : M (ptr * TaskManager_t)) :
  p <> NULL ->
  (modify p (set_Function func) ;;;
   modify p (set_Time timeMs) ;;;
   modify p (set_State state) ;;;
   modify p (set_TimePrev 0) ;;;
   modify p (set_TimeCost 0) ;;;
   modify p (set_TimeError 0) ;;;
   modify p (set_Next NULL) ;;; k) (<[p := Live t0]> m)
  = k (<[p := Live (mkTask func timeMs state 0 0 0 NULL)]> m).
Proof.
  intros Hp.
  do 7 (erewrite bind_Ok; [|by apply modify_insert]).
  reflexivity.
Qed.

(** The insert path on an empty registry: only the callee's copy of the
    registry learns about the node. *)
Lemma TaskRegister_body_new_empty (m : mem) r func timeMs state fuel :
  Head r = NULL -> 0 < fuel -> malloc m <> NULL ->
  TaskRegister_body malloc uninit fuel r func timeMs state m
  = Ok (malloc m, set_Tail (malloc m) (set_Head (malloc m) r))
       (<[malloc m := Live (mkTask func timeMs state 0 0 0 NULL)]> m).
Proof.
  intros Hh Hf Hm. unfold TaskRegister_body.
  assert (Hc : chain m (Head r) []) by done.
  rewrite (bind_Ok _ _ _ _ _ (TaskFind_chain m r [] func fuel Hc Hf)).
  change (first_match m func []) with NULL.
  destruct (decide (NULL <> NULL)); [done|].
  rewrite (bind_Ok _ _ _ _ _ (alloc_succeeds m Hm)).
  destruct (decide (malloc m = NULL)); [done|].
  rewrite init_new_task; [|done].
  destruct (decide (Head r = NULL)); [|done]. reflexivity.
Qed.

(** The insert path on a non-empty registry: the node is linked behind
    [Tail] through the heap. *)
Lemma TaskRegister_body_new_append (m : mem) r l func timeMs state fuel tl :
  chain m (Head r) l -> length l < fuel ->
  first_match m func l = NULL -> Head r <> NULL ->
  malloc m <> NULL -> Tail r <> NULL -> Tail r <> malloc m ->
  m !! Tail r = Some (Live tl) ->
  TaskRegister_body malloc uninit fuel r func timeMs state m
  = Ok (malloc m, set_Tail (malloc m) r)
       (<[Tail r := Live (set_Next (malloc m) tl)]>
          (<[malloc m := Live (mkTask func timeMs state 0 0 0 NULL)]> m)).
Proof.
  intros Hc Hf Hn Hh Hm Ht Hne Htl. unfold TaskRegister_body.
  rewrite (bind_Ok _ _ _ _ _ (TaskFind_chain m r l func fuel Hc Hf)).
  rewrite Hn. destruct (decide (NULL <> NULL)); [done|].
  rewrite (bind_Ok _ _ _ _ _ (alloc_succeeds m Hm)).
  destruct (decide (malloc m = NULL)); [done|].
  rewrite init_new_task; [|done].
  destruct (decide (Head r = NULL)); [done|].
  erewrite bind_Ok; [reflexivity|].
  erewrite bind_Ok; [reflexivity|].
  apply modify_live; [done|]. by rewrite lookup_insert_ne.
Qed.

Lemma TaskRegister_of_body (m m' : mem) r r' func timeMs state fuel p :
  TaskRegister_body malloc uninit fuel r func timeMs state m = Ok (p, r') m' ->
  TaskRegister malloc uninit fuel r func timeMs state m = Ok p m'.
Proof. intros H. unfold TaskRegister. by rewrite (bind_Ok _ _ _ _ _ H). Qed.

End Register.

(** Linking a fresh node behind the last node extends the chain. *)
Lemma chain_snoc (m : mem) h l tl tlt p new :
  chain m h l -> last l = Some tl -> m !! tl = Some (Live tlt) ->
  p <> NULL -> p ∉ l -> Next new = NULL ->
  chain (<[tl := Live (set_Next p tlt)]> (<[p := Live new]> m)) h (l ++ [p]).
Proof.
  intros Hc. pose proof (chain_NoDup _ _ _ Hc) as Hnd. revert h Hc Hnd.
  induction l as [|a l IH]; intros h Hc Hnd Hl Htl Hp Hpl Hnew; [done|].
  destruct Hc as (-> & Hn & t & Ht & Hc).
  apply NoDup_cons in Hnd as [Ha Hnd].
  assert (a <> p) as Hap by (intros ->; apply Hpl; left).
  destruct l as [|b l].
  - injection Hl as <-. rewrite Ht in Htl. injection Htl as <-.
    split; [done|]. split; [done|]. exists (set_Next p t).
    split; [apply lookup_insert_eq|].
    split; [done|]. split; [done|]. exists new. split; [|done].
    rewrite lookup_insert_ne; [|done]. apply lookup_insert_eq.
  - rewrite last_cons_cons in Hl.
    assert (a <> tl) as Hatl.
    { intros ->. apply Ha. by apply last_Some_elem_of. }
    split; [done|]. split; [done|]. exists t. split.
    + rewrite lookup_insert_ne; [|done]. by rewrite lookup_insert_ne.
    + apply IH; try done. intros Hin. apply Hpl. by right.
Qed.

(** ** Dispatching *)

Section Dispatch.

Variable body_cost : TaskFunction_t -> Z -> Z.

Lemma is_due_agree now_tick (m m' : mem) (l : list ptr) :
  (forall q, q ∈ l -> m' !! q = m !! q) ->
  filter (fun q => is_due now_tick m' q) l = filter (fun q => is_due now_tick m q) l.
Proof.
  induction l as [|a l IH]; intros H; [done|].
  assert (is_due now_tick m' a = is_due now_tick m a) as Ea.
  { unfold is_due, task_at. rewrite (H a); [done|left]. }
  rewrite !filter_cons, Ea, IH; [done|].
  intros q Hq. apply H. by right.
Qed.

(** One pass of the dispatcher over a chain: the nodes fired are the due
    ones, in order; a due node's task becomes [fire] of it; nothing else in
    the heap changes. *)
Lemma run_loop_chain now_tick (l : list ptr) : forall (m : mem) p fuel,
  chain m p l -> length l < fuel ->
  exists m' : mem,
    run_loop body_cost fuel now_tick p m
    = Ok (filter (fun q => is_due now_tick m q) l) m' /\
    (forall q t, q ∈ l -> m !! q = Some (Live t) ->
       m' !! q = Some (Live (if due now_tick t then fire body_cost now_tick t else t))) /\
    (forall q, q ∉ l -> m' !! q = m !! q).
Proof.
  induction l as [|a l IH]; intros m p fuel Hc Hf.
  - simpl in Hc. subst. destruct fuel; [simpl in Hf; lia|].
    exists m. split; [done|]. split; [|done].
    intros q t Hq. by apply elem_of_nil in Hq.
  - pose proof (chain_NoDup _ _ _ Hc) as Hnd. apply NoDup_cons in Hnd as [Ha _].
    destruct Hc as (-> & Hn & t & Ht & Hc).
    destruct fuel as [|fuel]; [simpl in Hf; lia|]. cbn [run_loop].
    destruct (decide (a = NULL)); [done|].
    rewrite (bind_Ok _ _ _ _ _ (load_live a t m Hn Ht)).
    rewrite filter_cons.
    assert (is_due now_tick m a = due now_tick t) as Ea.
    { unfold is_due, task_at. by rewrite Ht. }
    rewrite Ea. destruct (due now_tick t) eqn:Hd.
    + rewrite (bind_Ok _ _ _ _ _ (modify_live a (fire body_cost now_tick) t m Hn Ht)).
      destruct (IH (<[a := Live (fire body_cost now_tick t)]> m) (Next t) fuel)
        as (m' & Hr & Hin & Hout).
      { by apply chain_insert_other. }
      { simpl in Hf. lia. }
      exists m'. rewrite (bind_Ok _ _ _ _ _ Hr).
      rewrite (is_due_agree now_tick m (<[a := Live (fire body_cost now_tick t)]> m)).
      2:{ intros q Hq. apply lookup_insert_ne. intros ->. done. }
      destruct (decide (Is_true true)) as [_|Hx]; [|by destruct Hx].
      split; [done|]. split.
      * intros q tq Hq Htq. apply elem_of_cons in Hq as [->|Hq].
        -- rewrite Ht in Htq. injection Htq as <-. rewrite Hd.
           rewrite Hout; [|done]. apply lookup_insert_eq.
        -- apply Hin; [done|]. rewrite lookup_insert_ne; [done|].
           intros ->. done.
      * intros q Hq. rewrite Hout.
        -- apply lookup_insert_ne. intros ->. apply Hq. left.
        -- intros H. apply Hq. by right.
    + destruct (IH m (Next t) fuel) as (m' & Hr & Hin & Hout); [done| |].
      { simpl in Hf. lia. }
      exists m'. destruct (decide (Is_true false)); [done|].
      split; [done|]. split.
      * intros q tq Hq Htq. apply elem_of_cons in Hq as [->|Hq].
        -- rewrite Ht in Htq. injection Htq as <-. rewrite Hd.
           rewrite Hout; [done|done].
        -- by apply Hin.
      * intros q Hq. apply Hout. intros H. apply Hq. by right.
Qed.

End Dispatch.

(** ** Facts shared by the theorems on [TaskRegister] *)

Lemma fresh_not_in_chain malloc (m : mem) p l :
  chain m p l -> malloc m <> NULL -> malloc_fresh malloc m -> malloc m ∉ l.
Proof.
  intros Hc Hn Hfr Hin.
  destruct (chain_live _ _ _ _ Hc Hin) as (_ & t & Ht).
  by apply (Hfr Hn t).
Qed.

Lemma tail_live (m : mem) r l :
  chain m (Head r) l -> tail_ok r l -> Head r <> NULL ->
  last l = Some (Tail r) /\ Tail r ∈ l /\ Tail r <> NULL /\
  exists tl, m !! Tail r = Some (Live tl).
Proof.
  intros Hc Ht Hh.
  destruct (chain_head _ _ _ Hc Hh) as (l' & ->).
  assert (last (Head r :: l') = Some (Tail r)) as Hl by (by apply Ht).
  pose proof (last_Some_elem_of _ _ Hl) as Hin.
  destruct (chain_live _ _ _ _ Hc Hin) as (Hn & t & Htl). eauto 6.
Qed.

Lemma first_match_snoc (m : mem) func l p new :
  (forall q, q ∈ l -> exists t, m !! q = Some (Live t) /\ Function t <> func) ->
  m !! p = Some (Live new) -> Function new = func ->
  first_match m func (l ++ [p]) = p.
Proof.
  intros Hl Hp Hf. induction l as [|a l IH]; simpl.
  - unfold task_at. rewrite Hp. by destruct (decide (Function new = func)).
  - destruct (Hl a) as (t & Ht & Hne); [left|].
    unfold task_at. rewrite Ht.
    destruct (decide (Function t = func)); [done|].
    apply IH. intros q Hq. apply Hl. by right.
Qed.

Lemma not_registered (m : mem) l func q t :
  func ∉ funcs m l -> q ∈ l -> m !! q = Some (Live t) -> Function t <> func.
Proof.
  intros Hf Hq Ht E. apply Hf, funcs_elem. eauto.
Qed.

(** * The claims *)

(** C1: for a registry whose sequence is [l] and a function identity
    already registered in it, [TaskRegister] returns the handle of the
    existing Task (the one [TaskFind] returns), sets its [Time]
    (interval_ms) and [State] (enabled) to the arguments, leaves its
    [TimePrev] (last_fire_tick) and [TimeError] (drift_ms) as they were, and
    leaves the sequence the same nodes with the same identities: the size is
    unchanged and no second Task of that identity appears. *)
Theorem TaskRegister_registered_updates_in_place
    malloc uninit (m : mem) r l func timeMs state fuel :
  chain m (Head r) l -> func ∈ funcs m l -> length l < fuel ->
  exists task t t' (m' : mem),
    TaskFind fuel r func m = Ok task m /\
    task <> NULL /\ task ∈ l /\
    m !! task = Some (Live t) /\ Function t = func /\
    TaskRegister malloc uninit fuel r func timeMs state m = Ok task m' /\
    m' !! task = Some (Live t') /\
    Time t' = timeMs /\ State t' = state /\
    TimePrev t' = TimePrev t /\ TimeError t' = TimeError t /\
    chain m' (Head r) l /\
    walk fuel m' (Head r) = Some l /\
    funcs m' l = funcs m l.
Proof.
  intros Hc Hin Hf.
  destruct (first_match_found _ _ _ _ Hc Hin) as (Hl & Hn & t & Ht & Ef).
  set (task := first_match m func l) in *.
  set (t' := set_State state (set_Time timeMs t)).
  assert (chain (<[task := Live t']> m) (Head r) l) as Hc'.
  { eapply chain_agree; [done|]. intros q tq Hq Hq'.
    destruct (decide (q = task)) as [->|Hne].
    - exists t'. rewrite lookup_insert_eq. split; [done|].
      rewrite Ht in Hq'. by injection Hq' as <-.
    - exists tq. by rewrite lookup_insert_ne. }
  exists task, t, t', (<[task := Live t']> m).
  split; [by apply TaskFind_chain|].
  do 4 (split; [done|]).
  split. { eapply TaskRegister_of_body. by eapply TaskRegister_body_found. }
  split; [apply lookup_insert_eq|].
  do 4 (split; [done|]).
  split; [done|]. split; [by apply chain_walk|].
  apply funcs_agree. intros q Hq. unfold task_at.
  destruct (decide (q = task)) as [->|Hne].
  - by rewrite lookup_insert_eq, Ht.
  - by rewrite lookup_insert_ne.
Qed.

Lemma TaskRegister_registered_updates_in_place_witness :
  chain heap2 (Head reg2) [1%N; 2%N] /\ 6%N ∈ funcs heap2 [1%N; 2%N] /\
  length [1%N; 2%N] < 5 /\
  exists task t t' (m' : mem),
    TaskFind 5 reg2 6 heap2 = Ok task heap2 /\
    task <> NULL /\ task ∈ [1%N; 2%N] /\
    heap2 !! task = Some (Live t) /\ Function t = 6%N /\
    TaskRegister malloc3 junk 5 reg2 6 25 false heap2 = Ok task m' /\
    m' !! task = Some (Live t') /\
    Time t' = 25%Z /\ State t' = false /\
    TimePrev t' = TimePrev t /\ TimeError t' = TimeError t /\
    chain m' (Head reg2) [1%N; 2%N] /\
    walk 5 m' (Head reg2) = Some [1%N; 2%N] /\
    funcs m' [1%N; 2%N] = funcs heap2 [1%N; 2%N].
Proof.
  assert (chain heap2 (Head reg2) [1%N; 2%N]) as Hc
    by (apply (walk_chain _ _ _ 5); reflexivity).
  assert (6%N ∈ funcs heap2 [1%N; 2%N]) as Hin
    by (apply (bool_decide_unpack _); vm_compute; exact I).
  assert (length [1%N; 2%N] < 5) as Hf by (simpl; lia).
  split; [exact Hc|]. split; [exact Hin|]. split; [exact Hf|].
  exact (TaskRegister_registered_updates_in_place
           malloc3 junk heap2 reg2 [1%N; 2%N] 6%N 25%Z false 5 Hc Hin Hf).
Defined.

(** C10: when the identity is already registered, [TaskRegister] writes
    the [Time] and [State] fields of that Task and nothing else: the heap
    afterwards is the heap before with that one node replaced by itself with
    the two fields set, so its [TimeCost] (last_cost_ms), its [Next] link
    and its [Function] are unchanged, every other cell is unchanged, the
    sequence has the same nodes in the same order, and the function's copy
    of the registry is not written either. *)
Theorem TaskRegister_registered_frame
    malloc uninit (m : mem) r l func timeMs state fuel :
  chain m (Head r) l -> func ∈ funcs m l -> length l < fuel ->
  exists task t t' (m' : mem),
    m !! task = Some (Live t) /\ Function t = func /\
    TaskRegister_body malloc uninit fuel r func timeMs state m = Ok (task, r) m' /\
    m' = <[task := Live t']> m /\
    t' = mkTask (Function t) timeMs state
                (TimePrev t) (TimeCost t) (TimeError t) (Next t) /\
    TimeCost t' = TimeCost t /\ Next t' = Next t /\
    (forall q, q <> task -> m' !! q = m !! q) /\
    chain m' (Head r) l /\
    (forall l', chain m' (Head r) l' -> l' = l).
Proof.
  intros Hc Hin Hf.
  destruct (first_match_found _ _ _ _ Hc Hin) as (Hl & Hn & t & Ht & Ef).
  set (task := first_match m func l) in *.
  set (t' := set_State state (set_Time timeMs t)).
  assert (chain (<[task := Live t']> m) (Head r) l) as Hc'.
  { eapply chain_agree; [done|]. intros q tq Hq Hq'.
    destruct (decide (q = task)) as [->|Hne].
    - exists t'. rewrite lookup_insert_eq. split; [done|].
      rewrite Ht in Hq'. by injection Hq' as <-.
    - exists tq. by rewrite lookup_insert_ne. }
  exists task, t, t', (<[task := Live t']> m).
  do 2 (split; [done|]).
  split; [by eapply TaskRegister_body_found|].
  do 4 (split; [done|]).
  split. { intros q Hq. by apply lookup_insert_ne. }
  split; [done|].
  intros l' Hl'. by apply (chain_functional _ _ _ _ Hl' Hc').
Qed.

Lemma TaskRegister_registered_frame_witness :
  chain heap2 (Head reg2) [1%N; 2%N] /\ 5%N ∈ funcs heap2 [1%N; 2%N] /\
  length [1%N; 2%N] < 3 /\
  exists task t t' (m' : mem),
    heap2 !! task = Some (Live t) /\ Function t = 5%N /\
    TaskRegister_body malloc_fails junk 3 reg2 5 40 false heap2 = Ok (task, reg2) m' /\
    m' = <[task := Live t']> heap2 /\
    t' = mkTask (Function t) 40 false
                (TimePrev t) (TimeCost t) (TimeError t) (Next t) /\
    TimeCost t' = TimeCost t /\ Next t' = Next t /\
    (forall q, q <> task -> m' !! q = heap2 !! q) /\
    chain m' (Head reg2) [1%N; 2%N] /\
    (forall l', chain m' (Head reg2) l' -> l' = [1%N; 2%N]).
Proof.
  assert (chain heap2 (Head reg2) [1%N; 2%N]) as Hc
    by (apply (walk_chain _ _ _ 5); reflexivity).
  assert (5%N ∈ funcs heap2 [1%N; 2%N]) as Hin
    by (apply (bool_decide_unpack _); vm_compute; exact I).
  assert (length [1%N; 2%N] < 3) as Hf by (simpl; lia).
  split; [exact Hc|]. split; [exact Hin|]. split; [exact Hf|].
  exact (TaskRegister_registered_frame
           malloc_fails junk heap2 reg2 [1%N; 2%N] 5%N 40%Z false 3 Hc Hin Hf).
Defined.

(** C7: when the identity is not registered and [malloc] cannot satisfy
    the allocation (it returns [NULL]), [TaskRegister] returns [NULL] (no
    handle), which is its out-of-memory failure, and the heap, and with it
    the registry, is exactly as before; the function's copy of the registry
    is not written.  A [NULL] result arises in no other way. *)
Theorem TaskRegister_out_of_memory
    malloc uninit (m : mem) r l func timeMs state fuel :
  chain m (Head r) l -> tail_ok r l -> length l < fuel ->
  malloc_fresh malloc m ->
  (func ∉ funcs m l -> malloc m = NULL ->
     TaskRegister malloc uninit fuel r func timeMs state m = Ok NULL m /\
     TaskRegister_body malloc uninit fuel r func timeMs state m = Ok (NULL, r) m /\
     chain m (Head r) l) /\
  (forall m' : mem,
     TaskRegister malloc uninit fuel r func timeMs state m = Ok NULL m' ->
     (func ∉ funcs m l) /\ malloc m = NULL /\ m' = m).
Proof.
  intros Hc Ht Hf Hfr. split.
  - intros Hnin Hm.
    pose proof (first_match_absent _ _ _ _ Hc Hnin) as Hfm.
    pose proof (TaskRegister_body_oom malloc uninit m r l func timeMs state fuel
                  Hc Hf Hfm Hm) as Hb.
    split; [by eapply TaskRegister_of_body|]. done.
  - intros m' Hr.
    destruct (decide (func ∈ funcs m l)) as [Hin|Hnin].
    { destruct (first_match_found _ _ _ _ Hc Hin) as (Hl & Hn & t & Htk & Ef).
      pose proof (TaskRegister_body_found malloc uninit m r l func timeMs state
                    fuel t Hc Hf Hn Htk) as Hb.
      apply TaskRegister_of_body in Hb. rewrite Hb in Hr. by injection Hr. }
    pose proof (first_match_absent _ _ _ _ Hc Hnin) as Hfm.
    destruct (decide (malloc m = NULL)) as [Hm|Hm].
    { pose proof (TaskRegister_body_oom malloc uninit m r l func timeMs state fuel
                    Hc Hf Hfm Hm) as Hb.
      apply TaskRegister_of_body in Hb. rewrite Hb in Hr. by injection Hr. }
    exfalso. destruct (decide (Head r = NULL)) as [Hh|Hh].
    + assert (0 < fuel) as Hf0 by lia.
      pose proof (TaskRegister_body_new_empty malloc uninit m r func timeMs state
                    fuel Hh Hf0 Hm) as Hb.
      apply TaskRegister_of_body in Hb. rewrite Hb in Hr. by injection Hr.
    + destruct (tail_live _ _ _ Hc Ht Hh) as (Hlast & Hin & Htn & tl & Htl).
      assert (Tail r <> malloc m) as Hne.
      { intros E. apply (fresh_not_in_chain malloc m _ l Hc Hm Hfr). by rewrite <- E. }
      pose proof (TaskRegister_body_new_append malloc uninit m r l func timeMs state
                    fuel tl Hc Hf Hfm Hh Hm Htn Hne Htl) as Hb.
      apply TaskRegister_of_body in Hb. rewrite Hb in Hr. by injection Hr.
Qed.

Lemma TaskRegister_out_of_memory_witness :
  chain heap2 (Head reg2) [1%N; 2%N] /\ tail_ok reg2 [1%N; 2%N] /\
  length [1%N; 2%N] < 3 /\ malloc_fresh malloc_fails heap2 /\
  (7%N ∉ funcs heap2 [1%N; 2%N]) /\ malloc_fails heap2 = NULL /\
  TaskRegister malloc_fails junk 3 reg2 7 100 true heap2 = Ok NULL heap2 /\
  TaskRegister_body malloc_fails junk 3 reg2 7 100 true heap2 = Ok (NULL, reg2) heap2 /\
  chain heap2 (Head reg2) [1%N; 2%N].
Proof.
  assert (chain heap2 (Head reg2) [1%N; 2%N]) as Hc
    by (apply (walk_chain _ _ _ 5); reflexivity).
  assert (tail_ok reg2 [1%N; 2%N]) as Ht by (intros _; reflexivity).
  assert (length [1%N; 2%N] < 3) as Hf by (simpl; lia).
  assert (malloc_fresh malloc_fails heap2) as Hfr by (intros H; by destruct H).
  assert (7%N ∉ funcs heap2 [1%N; 2%N]) as Hnin
    by (apply (bool_decide_unpack _); vm_compute; exact I).
  assert (malloc_fails heap2 = NULL) as Hm by reflexivity.
  do 6 (split; [done|]).
  exact (proj1 (TaskRegister_out_of_memory
                  malloc_fails junk heap2 reg2 [1%N; 2%N] 7%N 100%Z true 3
                  Hc Ht Hf Hfr) Hnin Hm).
Defined.

(** C9: on a registry whose sequence [l] is finite and acyclic (a chain
    from [Head] to [NULL]), the [while(1)] loops of [ManagerDelete],
    [TaskFind] and [GetPrev] terminate: each iteration moves one node along
    the chain, so [length l + 1] iterations are enough, and any larger
    budget gives the same result. *)
Theorem traversals_terminate (m : mem) r l :
  chain m (Head r) l ->
  forall fuel, length l < fuel ->
    ManagerDelete fuel r m = Ok tt (release l m) /\
    (forall func, TaskFind fuel r func m = Ok (first_match m func l) m) /\
    (forall task, GetPrev fuel r task m = Ok (prev_in task NULL l) m).
Proof.
  intros Hc fuel Hf. split; [|split].
  - by apply ManagerDelete_loop_chain.
  - intros func. by apply TaskFind_loop_chain.
  - intros task. by apply GetPrev_loop_chain.
Qed.

Lemma traversals_terminate_witness :
  chain heap2 (Head reg2) [1%N; 2%N] /\
  forall fuel, length [1%N; 2%N] < fuel ->
    ManagerDelete fuel reg2 heap2 = Ok tt (release [1%N; 2%N] heap2) /\
    (forall func, TaskFind fuel reg2 func heap2
                  = Ok (first_match heap2 func [1%N; 2%N]) heap2) /\
    (forall task, GetPrev fuel reg2 task heap2
                  = Ok (prev_in task NULL [1%N; 2%N]) heap2).
Proof.
  assert (chain heap2 (Head reg2) [1%N; 2%N]) as Hc
    by (apply (walk_chain _ _ _ 5); reflexivity).
  split; [exact Hc|].
  exact (traversals_terminate heap2 reg2 [1%N; 2%N] Hc).
Defined.

(** C3, as the code has it: on a registry whose sequence is [l],
    [ManagerDelete] reads the successor link of the current node while the
    node is still live and only then frees the cached node.  The traversal
    completes without any access to a released block, every node of the
    sequence ends up freed and every other cell is untouched. *)
Theorem ManagerDelete_reads_successor_before_free (m : mem) r l fuel :
  chain m (Head r) l -> length l < fuel ->
  exists m' : mem,
    ManagerDelete fuel r m = Ok tt m' /\
    ManagerDelete fuel r m <> Fault UseAfterFree /\
    (forall q, q ∈ l -> m' !! q = Some Freed) /\
    (forall q, q ∉ l -> m' !! q = m !! q).
Proof.
  intros Hc Hf. exists (release l m).
  assert (ManagerDelete fuel r m = Ok tt (release l m)) as E
    by (by apply ManagerDelete_loop_chain).
  split; [done|]. split; [by rewrite E|]. split.
  - intros q Hq. by apply release_lookup.
  - intros q Hq. by apply release_lookup_other.
Qed.

Lemma ManagerDelete_reads_successor_before_free_witness :
  chain heap2 (Head reg2) [1%N; 2%N] /\ length [1%N; 2%N] < 3 /\
  exists m' : mem,
    ManagerDelete 3 reg2 heap2 = Ok tt m' /\
    ManagerDelete 3 reg2 heap2 <> Fault UseAfterFree /\
    (forall q, q ∈ [1%N; 2%N] -> m' !! q = Some Freed) /\
    (forall q, q ∉ [1%N; 2%N] -> m' !! q = heap2 !! q).
Proof.
  assert (chain heap2 (Head reg2) [1%N; 2%N]) as Hc
    by (apply (walk_chain _ _ _ 5); reflexivity).
  assert (length [1%N; 2%N] < 3) as Hf by (simpl; lia).
  split; [exact Hc|]. split; [exact Hf|].
  exact (ManagerDelete_reads_successor_before_free heap2 reg2 [1%N; 2%N] 3 Hc Hf).
Defined.

(** C3, counterexample to the claim as stated: on the one-node registry
    [reg1] the teardown of the source never reads a released node, whatever
    the iteration budget; it finishes and leaves the node freed.  The loop
    written the way the claim describes it (free, then read the successor)
    does fault on the same registry. *)
Lemma ManagerDelete_no_use_after_free_on_reg1 :
  chain heap1 (Head reg1) [1%N] /\
  ManagerDelete 2 reg1 heap1 = Ok tt {[ 1%N := Freed ]} /\
  (forall fuel, ManagerDelete fuel reg1 heap1 <> Fault UseAfterFree) /\
  ManagerDelete_described 2 reg1 heap1 = Fault UseAfterFree.
Proof.
  split; [apply (walk_chain _ _ _ 5); reflexivity|].
  split; [reflexivity|]. split; [|reflexivity].
  intros [|[|fuel]]; [done|done|].
  assert (chain heap1 (Head reg1) [1%N]) as Hc
    by (apply (walk_chain _ _ _ 5); reflexivity).
  unfold ManagerDelete.
  rewrite (ManagerDelete_loop_chain heap1 _ [1%N] (S (S fuel)) Hc); [done|].
  simpl. lia.
Qed.

(** C6: [TaskLogout] has an empty body.  It returns no value and changes
    nothing: on the registry [reg1], whose one Task has identity 5, the
    Task is still in the sequence and still found after [TaskLogout 5]. *)
Theorem TaskLogout_removes_nothing :
  (forall func (m : mem), TaskLogout func m = Ok None m) /\
  TaskFind 3 reg1 5 heap1 = Ok 1%N heap1 /\
  (let* _ := TaskLogout 5 in TaskFind 3 reg1 5) heap1 = Ok 1%N heap1 /\
  (let* _ := TaskLogout 5 in fun m => Ok (walk 3 m (Head reg1)) m) heap1
  = Ok (Some [1%N]) heap1.
Proof. repeat split; reflexivity. Qed.

(** What a successful insertion does, by the state of the caller's
    registry.  Shared by the theorems on unregistered identities. *)
Lemma TaskRegister_new_cases
    malloc uninit (m : mem) r l func timeMs state fuel :
  chain m (Head r) l -> tail_ok r l -> (func ∉ funcs m l) -> length l < fuel ->
  malloc m <> NULL -> malloc_fresh malloc m ->
  let p := malloc m in
  let new := mkTask func timeMs state 0 0 0 NULL in
  exists r' (m' : mem),
    TaskRegister_body malloc uninit fuel r func timeMs state m = Ok (p, r') m' /\
    m' !! p = Some (Live new) /\
    Tail r' = p /\
    (Head r = NULL ->
       l = [] /\ Head r' = p /\ m' = <[p := Live new]> m /\
       chain m' (Head r) [] /\
       forall fuel', 0 < fuel' -> TaskFind fuel' r func m' = Ok NULL m') /\
    (Head r <> NULL ->
       Head r' = Head r /\
       chain m' (Head r) (l ++ [p]) /\
       (forall fuel', length l + 1 < fuel' -> TaskFind fuel' r func m' = Ok p m') /\
       ~ tail_ok r (l ++ [p])).
Proof.
  intros Hc Ht Hnin Hf Hm Hfr p new.
  pose proof (first_match_absent _ _ _ _ Hc Hnin) as Hfm.
  pose proof (fresh_not_in_chain malloc m _ l Hc Hm Hfr) as Hpl.
  fold p in Hm, Hpl.
  destruct (decide (Head r = NULL)) as [Hh|Hh].
  - exists (set_Tail p (set_Head p r)), (<[p := Live new]> m).
    split. { apply TaskRegister_body_new_empty; [done|lia|done]. }
    split; [apply lookup_insert_eq|]. split; [done|]. split; [|done].
    intros _. rewrite Hh in Hc. apply chain_null in Hc as ->.
    do 3 (split; [done|]). split; [done|].
    intros fuel' Hf'.
    assert (chain (<[p := Live new]> m) (Head r) []) as Hc' by done.
    by rewrite (TaskFind_chain _ r [] func fuel' Hc' Hf').
  - destruct (tail_live _ _ _ Hc Ht Hh) as (Hlast & Hin & Htn & tl & Htl).
    assert (Tail r <> p) as Hne by (intros E; apply Hpl; by rewrite <- E).
    set (m' := <[Tail r := Live (set_Next p tl)]> (<[p := Live new]> m)).
    assert (chain m' (Head r) (l ++ [p])) as Hc'
      by (by apply chain_snoc).
    exists (set_Tail p r), m'.
    split. { by eapply TaskRegister_body_new_append. }
    split. { unfold m'. rewrite lookup_insert_ne; [|done]. apply lookup_insert_eq. }
    split; [done|]. split; [done|]. intros _.
    split; [done|]. split; [done|]. split.
    + intros fuel' Hf'.
      rewrite (TaskFind_chain m' r (l ++ [p]) func fuel' Hc').
      2:{ rewrite length_app. simpl. lia. }
      f_equal. apply (first_match_snoc m' func l p new); [| |done].
      * intros q Hq. destruct (chain_live _ _ _ _ Hc Hq) as (_ & tq & Htq).
        destruct (decide (q = Tail r)) as [->|Hqt].
        -- exists (set_Next p tl). unfold m'. rewrite lookup_insert_eq.
           split; [done|]. simpl. by apply (not_registered m l func (Tail r) tl).
        -- exists tq. unfold m'. rewrite lookup_insert_ne; [|done].
           rewrite lookup_insert_ne; [|intros ->; done].
           split; [done|]. by apply (not_registered m l func q tq).
      * unfold m'. rewrite lookup_insert_ne; [|done]. apply lookup_insert_eq.
    + intros Hto. unfold tail_ok in Hto. rewrite last_snoc in Hto.
      assert (Some p = Some (Tail r)) as E.
      { apply Hto. by destruct l. }
      by injection E as E.
Qed.

(** C5, as the code has it: [TaskRegister] receives the registry by value,
    so the caller's [Head] and [Tail] are what they were, and only the
    function's own copy gets the new [Tail] (and, for an empty registry, the
    new [Head]).  On an empty registry, which is what [ManagerCreate]
    returns, the new Task is therefore not reachable from the caller's
    registry and [TaskFind] does not find it.  On a non-empty registry the
    write [Tail->Next = task] goes through the heap: the new Task is linked
    behind the last node, it is reachable from the caller's [Head],
    [TaskFind] returns it, and the caller's [Tail] no longer designates the
    last node. *)
Theorem TaskRegister_registry_by_value
    malloc uninit (m : mem) r l func timeMs state fuel :
  chain m (Head r) l -> tail_ok r l -> (func ∉ funcs m l) -> length l < fuel ->
  malloc m <> NULL -> malloc_fresh malloc m ->
  exists r' (m' : mem),
    TaskRegister_body malloc uninit fuel r func timeMs state m
    = Ok (malloc m, r') m' /\
    TaskRegister malloc uninit fuel r func timeMs state m = Ok (malloc m) m' /\
    Tail r' = malloc m /\
    (Head r = NULL ->
       Head r' = malloc m /\
       chain m' (Head r) [] /\
       TaskFind fuel r func m' = Ok NULL m') /\
    (Head r <> NULL ->
       Head r' = Head r /\
       chain m' (Head r) (l ++ [malloc m]) /\
       TaskFind (S fuel) r func m' = Ok (malloc m) m' /\
       ~ tail_ok r (l ++ [malloc m])).
Proof.
  intros Hc Ht Hnin Hf Hm Hfr.
  destruct (TaskRegister_new_cases malloc uninit m r l func timeMs state fuel
              Hc Ht Hnin Hf Hm Hfr) as (r' & m' & Hb & _ & Htl & He & Hne).
  exists r', m'. split; [done|]. split; [by eapply TaskRegister_of_body|].
  split; [done|]. split.
  - intros Hh. destruct (He Hh) as (_ & H1 & _ & H2 & H3).
    split; [done|]. split; [done|]. apply H3. lia.
  - intros Hh. destruct (Hne Hh) as (H1 & H2 & H3 & H4).
    do 2 (split; [done|]). split; [|done]. apply H3. lia.
Qed.

Lemma TaskRegister_registry_by_value_witness :
  chain ∅ (Head reg0) [] /\ tail_ok reg0 [] /\
  (7%N ∉ funcs ∅ []) /\ length (@nil ptr) < 1 /\
  malloc3 ∅ <> NULL /\ malloc_fresh malloc3 ∅ /\
  exists r' (m' : mem),
    TaskRegister_body malloc3 junk 1 reg0 7 100 true ∅ = Ok (malloc3 ∅, r') m' /\
    TaskRegister malloc3 junk 1 reg0 7 100 true ∅ = Ok (malloc3 ∅) m' /\
    Tail r' = malloc3 ∅ /\
    (Head reg0 = NULL ->
       Head r' = malloc3 ∅ /\
       chain m' (Head reg0) [] /\
       TaskFind 1 reg0 7 m' = Ok NULL m') /\
    (Head reg0 <> NULL ->
       Head r' = Head reg0 /\
       chain m' (Head reg0) ([] ++ [malloc3 ∅]) /\
       TaskFind 2 reg0 7 m' = Ok (malloc3 ∅) m' /\
       ~ tail_ok reg0 ([] ++ [malloc3 ∅])).
Proof.
  assert (chain ∅ (Head reg0) []) as Hc by reflexivity.
  assert (tail_ok reg0 []) as Ht by (intros H; by destruct H).
  assert (7%N ∉ funcs ∅ []) as Hnin
    by (apply (bool_decide_unpack _); vm_compute; exact I).
  assert (length (@nil ptr) < 1) as Hf by (simpl; lia).
  assert (malloc3 ∅ <> NULL) as Hm by (vm_compute; discriminate).
  assert (malloc_fresh malloc3 ∅) as Hfr by (intros _ t; vm_compute; discriminate).
  do 6 (split; [done|]).
  exact (TaskRegister_registry_by_value
           malloc3 junk ∅ reg0 [] 7%N 100%Z true 1 Hc Ht Hnin Hf Hm Hfr).
Defined.

(** C5, counterexample to the claim as stated: [reg1] holds one Task and
    identity 7 is not registered in it; after [TaskRegister] of 7 the new
    Task at address 3 is reachable from the caller's unchanged [reg1] and
    [TaskFind] on [reg1] returns it instead of not-found. *)
Lemma TaskRegister_new_task_reachable_on_reg1 :
  TaskFind 3 reg1 7 heap1 = Ok NULL heap1 /\
  exists m' : mem,
    TaskRegister malloc3 junk 3 reg1 7 100 true heap1 = Ok 3%N m' /\
    walk 3 m' (Head reg1) = Some [1%N; 3%N] /\
    TaskFind 3 reg1 7 m' = Ok 3%N m' /\
    TaskFind 3 reg1 7 m' <> Ok NULL m'.
Proof.
  split; [reflexivity|].
  eexists. split; [reflexivity|]. split; [reflexivity|].
  split; [reflexivity|]. discriminate.
Qed.

(** C8: on the empty registry that [ManagerCreate] returns, a successful
    [TaskRegister] of an unregistered identity allocates the Task, sets
    [Function], [Time] and [State] to the arguments and [TimePrev],
    [TimeCost], [TimeError] to 0, and returns its handle, but the Task is
    not appended to the caller's sequence: the new [Head] and [Tail] are
    written to the function's by-value copy only, the caller's sequence is
    still empty and [TaskFind] does not find the identity. *)
Theorem TaskRegister_on_empty_registry_loses_task :
  TaskFind 3 reg0 7 ∅ = Ok NULL ∅ /\
  exists m' : mem,
    TaskRegister malloc3 junk 3 reg0 7 100 true ∅ = Ok 3%N m' /\
    TaskRegister_body malloc3 junk 3 reg0 7 100 true ∅
    = Ok (3%N, mkManager false 3 3) m' /\
    m' !! 3%N = Some (Live (mkTask 7 100 true 0 0 0 NULL)) /\
    Head reg0 = NULL /\ Tail reg0 = NULL /\
    walk 3 m' (Head reg0) = Some [] /\
    TaskFind 3 reg0 7 m' = Ok NULL m'.
Proof.
  split; [reflexivity|]. eexists. repeat split; reflexivity.
Qed.

(** C2, as the code has it: [timeMs] is a [uint32_t], so a negative
    interval cannot be passed, and an interval of 0 is not rejected: no
    result of [TaskRegister] stands for an invalid interval.  With
    [timeMs = 0] the call does what it does for any interval: on a
    registered identity it sets that Task's [Time] to 0 and returns its
    handle; on an unregistered one it creates, when [malloc] succeeds, a
    Task with [Time = 0] and returns its handle, and returns [NULL] with the
    heap unchanged only when [malloc] fails. *)
Theorem TaskRegister_accepts_zero_interval
    malloc uninit (m : mem) r l func timeMs state fuel :
  chain m (Head r) l -> tail_ok r l -> length l < fuel ->
  malloc_fresh malloc m ->
  uint32 timeMs -> (timeMs <= 0)%Z ->
  timeMs = 0%Z /\
  exists task (m' : mem),
    TaskRegister malloc uninit fuel r func timeMs state m = Ok task m' /\
    (func ∈ funcs m l ->
       task = first_match m func l /\ task <> NULL /\
       exists t, m !! task = Some (Live t) /\ Function t = func /\
                 m' = <[task := Live (set_State state (set_Time 0 t))]> m) /\
    ((func ∉ funcs m l) -> malloc m <> NULL ->
       task = malloc m /\ task <> NULL /\
       m' !! task = Some (Live (mkTask func 0 state 0 0 0 NULL)) /\
       m' <> m) /\
    ((func ∉ funcs m l) -> malloc m = NULL -> task = NULL /\ m' = m).
Proof.
  intros Hc Ht Hf Hfr [Hlo _] Hhi.
  assert (timeMs = 0%Z) as -> by lia. split; [done|].
  destruct (decide (func ∈ funcs m l)) as [Hin|Hnin].
  - destruct (first_match_found _ _ _ _ Hc Hin) as (Hl & Hn & t & Htk & Ef).
    eexists _, _. split.
    { eapply TaskRegister_of_body. by eapply TaskRegister_body_found. }
    split; [eauto 8|]. split; intros; done.
  - pose proof (first_match_absent _ _ _ _ Hc Hnin) as Hfm.
    destruct (decide (malloc m = NULL)) as [Hm|Hm].
    + eexists _, _. split.
      { eapply TaskRegister_of_body. by eapply TaskRegister_body_oom. }
      split; [done|]. split; [done|]. done.
    + destruct (TaskRegister_new_cases malloc uninit m r l func 0 state fuel
                  Hc Ht Hnin Hf Hm Hfr) as (r' & m' & Hb & Hnew & _).
      exists (malloc m), m'. split; [by eapply TaskRegister_of_body|].
      split; [done|]. split; [|done]. intros _ _.
      do 3 (split; [done|]). intros ->. by apply (Hfr Hm _ Hnew).
Qed.

Lemma TaskRegister_accepts_zero_interval_witness :
  chain heap1 (Head reg1) [1%N] /\ tail_ok reg1 [1%N] /\ length [1%N] < 3 /\
  malloc_fresh malloc3 heap1 /\ uint32 0 /\ (0 <= 0)%Z /\
  0%Z = 0%Z /\
  exists task (m' : mem),
    TaskRegister malloc3 junk 3 reg1 7 0 true heap1 = Ok task m' /\
    (7%N ∈ funcs heap1 [1%N] ->
       task = first_match heap1 7 [1%N] /\ task <> NULL /\
       exists t, heap1 !! task = Some (Live t) /\ Function t = 7%N /\
                 m' = <[task := Live (set_State true (set_Time 0 t))]> heap1) /\
    ((7%N ∉ funcs heap1 [1%N]) -> malloc3 heap1 <> NULL ->
       task = malloc3 heap1 /\ task <> NULL /\
       m' !! task = Some (Live (mkTask 7 0 true 0 0 0 NULL)) /\
       m' <> heap1) /\
    ((7%N ∉ funcs heap1 [1%N]) -> malloc3 heap1 = NULL -> task = NULL /\ m' = heap1).
Proof.
  assert (chain heap1 (Head reg1) [1%N]) as Hc
    by (apply (walk_chain _ _ _ 5); reflexivity).
  assert (tail_ok reg1 [1%N]) as Ht by (intros _; reflexivity).
  assert (length [1%N] < 3) as Hf by (simpl; lia).
  assert (malloc_fresh malloc3 heap1) as Hfr
    by (intros _ t; vm_compute; discriminate).
  assert (uint32 0) as Hu by (unfold uint32; lia).
  assert (0 <= 0)%Z as Hz by lia.
  do 6 (split; [done|]).
  exact (TaskRegister_accepts_zero_interval
           malloc3 junk heap1 reg1 [1%N] 7%N 0%Z true 3 Hc Ht Hf Hfr Hu Hz).
Defined.

(** C2, counterexample to the claim as stated: [TaskRegister] with
    [timeMs = 0] on the one-node registry [reg1] returns a handle, not an
    error; for the unregistered identity 7 it creates a Task and the
    sequence grows from one node to two, and for the registered identity 5
    it overwrites that Task's [Time] with 0. *)
Lemma TaskRegister_zero_interval_changes_reg1 :
  walk 3 heap1 (Head reg1) = Some [1%N] /\
  (exists m' : mem,
     TaskRegister malloc3 junk 3 reg1 7 0 true heap1 = Ok 3%N m' /\
     m' !! 3%N = Some (Live (mkTask 7 0 true 0 0 0 NULL)) /\
     walk 3 m' (Head reg1) = Some [1%N; 3%N] /\
     m' <> heap1) /\
  (exists m' : mem,
     TaskRegister malloc3 junk 3 reg1 5 0 true heap1 = Ok 1%N m' /\
     heap1 !! 1%N = Some (Live (mkTask 5 10 true 0 0 0 NULL)) /\
     m' !! 1%N = Some (Live (mkTask 5 0 true 0 0 0 NULL)) /\
     m' <> heap1).
Proof.
  split; [reflexivity|]. split.
  - eexists. split; [reflexivity|]. split; [reflexivity|].
    split; [reflexivity|]. intros E. apply (f_equal (fun h : mem => h !! 3%N)) in E.
    vm_compute in E. discriminate.
  - eexists. split; [reflexivity|]. split; [reflexivity|].
    split; [reflexivity|]. intros E. apply (f_equal (fun h : mem => h !! 1%N)) in E.
    vm_compute in E. discriminate.
Qed.

(** ** The dispatcher on a registered task *)

Section DispatchOne.

Variable body_cost : TaskFunction_t -> Z -> Z.

(** One invocation of [run], seen from one node of the sequence. *)
Lemma run_step (m : mem) r l fuel now_tick p t :
  chain m (Head r) l -> length l < fuel ->
  p ∈ l -> m !! p = Some (Live t) ->
  exists fired (m' : mem),
    run body_cost fuel r now_tick m = Ok fired m' /\
    chain m' (Head r) l /\
    NoDup fired /\
    (p ∈ fired <-> due now_tick t = true) /\
    m' !! p = Some (Live (if due now_tick t then fire body_cost now_tick t else t)).
Proof.
  intros Hc Hf Hp Ht.
  destruct (run_loop_chain body_cost now_tick l m (Head r) fuel Hc Hf)
    as (m' & Hr & Hin & Hout).
  exists (filter (fun q => is_due now_tick m q) l), m'.
  split; [done|]. split.
  { eapply chain_agree; [done|]. intros q tq Hq Htq.
    eexists. split; [by apply Hin|]. by destruct (due now_tick tq). }
  split. { apply NoDup_filter. by eapply chain_NoDup. }
  split; [|by apply Hin].
  rewrite list_elem_of_filter. unfold is_due, task_at. rewrite Ht.
  split.
  - intros [H _]. by apply Is_true_true.
  - intros H. split; [by apply Is_true_true|done].
Qed.

Lemma run_ticks_cons (m m' m'' : mem) r fuel now_tick rest fired more :
  run body_cost fuel r now_tick m = Ok fired m' ->
  run_ticks body_cost fuel r rest m' = Ok more m'' ->
  run_ticks body_cost fuel r (now_tick :: rest) m = Ok (fired :: more) m''.
Proof.
  intros H1 H2. cbn [run_ticks].
  rewrite (bind_Ok _ _ _ _ _ H1). by rewrite (bind_Ok _ _ _ _ _ H2).
Qed.

Lemma due_fresh_100 now_tick func nxt :
  due now_tick (mkTask func 100 true 0 0 0 nxt) = (100 <=? now_tick)%Z.
Proof. unfold due, elapsed. simpl. f_equal. lia. Qed.

Lemma due_fired_100 now_tick func cost nxt :
  due now_tick (mkTask func 100 true 100 cost 0 nxt) = (200 <=? now_tick)%Z.
Proof.
  unfold due, elapsed. simpl.
  destruct (Z.leb_spec 100 (now_tick - 100 + 0)), (Z.leb_spec 200 now_tick); lia.
Qed.

Lemma fire_fresh_100 func nxt :
  fire body_cost 100 (mkTask func 100 true 0 0 0 nxt)
  = mkTask func 100 true 100 (body_cost func 100) 0 nxt.
Proof. reflexivity. Qed.

End DispatchOne.

(** C4: on the dispatcher of section 4.2.  On every registry whose
    sequence is [l], one invocation of [run] at any [now_tick] fires an
    enabled Task exactly when
    [elapsed + drift_ms >= interval_ms] with
    [elapsed = now_tick - last_fire_tick], fires no Task twice, and leaves a
    Task that is not fired as it was.  If the registry holds a Task with
    interval 100, enabled, last fire tick 0 and no drift, as [TaskRegister]
    creates it, that Task is not fired by [run] at 0 nor at
    any tick [a] below 100 (50 for one), is fired at 100, is not fired by
    a second [run] at 100 nor at any tick [b] from 100 up to 200 excluded,
    and is fired again at 200. *)
Theorem run_fires_exactly_when_due
    body_cost (m : mem) r l fuel :
  chain m (Head r) l -> length l < fuel ->
  (forall now_tick, exists fired (m' : mem),
     run body_cost fuel r now_tick m = Ok fired m' /\
     NoDup fired /\
     forall q t, q ∈ l -> m !! q = Some (Live t) ->
       (State t = true ->
          (q ∈ fired <-> (elapsed now_tick t + TimeError t >= Time t)%Z)) /\
       (State t = false -> (q ∉ fired)) /\
       (q ∈ fired -> m' !! q = Some (Live (fire body_cost now_tick t))) /\
       (q ∉ fired -> m' !! q = Some (Live t))) /\
  (forall p func nxt a b,
     p ∈ l -> m !! p = Some (Live (mkTask func 100 true 0 0 0 nxt)) ->
     (0 <= a < 100)%Z -> (100 <= b < 200)%Z ->
     exists F0 Fa F100 F100' Fb F200 (m' : mem),
     run_ticks body_cost fuel r [0; a; 100; 100; b; 200]%Z m
     = Ok [F0; Fa; F100; F100'; Fb; F200] m' /\
     (p ∉ F0) /\ (p ∉ Fa) /\
     p ∈ F100 /\ NoDup F100 /\ (p ∉ F100') /\
     (p ∉ Fb) /\
     p ∈ F200).
Proof.
  intros Hc Hf. split.
  - intros now_tick.
    destruct (run_loop_chain body_cost now_tick l m (Head r) fuel Hc Hf)
      as (m' & Hr & Hin & Hout).
    exists (filter (fun q => is_due now_tick m q) l), m'.
    split; [done|].
    split. { apply NoDup_filter. by eapply chain_NoDup. }
    intros q t Hq Hqt.
    assert (q ∈ filter (fun q => is_due now_tick m q) l <-> due now_tick t = true)
      as Hfd.
    { rewrite list_elem_of_filter. unfold is_due, task_at. rewrite Hqt.
      split; [intros [H _]; by apply Is_true_true|].
      intros H. split; [by apply Is_true_true|done]. }
    pose proof (Hin q t Hq Hqt) as Hq'.
    split; [|split; [|split]].
    + intros Hs. rewrite Hfd. unfold due. rewrite Hs. simpl.
      rewrite Z.leb_le. lia.
    + intros Hs. rewrite Hfd. unfold due. rewrite Hs. simpl. done.
    + intros H. apply Hfd in H. by rewrite H in Hq'.
    + intros H. destruct (due now_tick t) eqn:Hd; [|done].
      exfalso. by apply H, Hfd.
  - intros p func nxt a b Hp Ht Ha Hb.
    set (t0 := mkTask func 100 true 0 0 0 nxt) in *.
    set (t1 := mkTask func 100 true 100 (body_cost func 100%Z) 0 nxt).
    destruct (run_step body_cost m r l fuel 0%Z p t0 Hc Hf Hp Ht)
      as (F0 & m0 & R0 & C0 & _ & D0 & S0).
    unfold t0 in D0, S0. rewrite due_fresh_100 in D0, S0.
    destruct (Z.leb_spec 100 0) as [?|_]; [lia|].
    destruct (run_step body_cost m0 r l fuel a p t0 C0 Hf Hp S0)
      as (Fa & ma & Ra & Ca & _ & Da & Sa).
    unfold t0 in Da, Sa. rewrite due_fresh_100 in Da, Sa.
    destruct (Z.leb_spec 100 a) as [?|_]; [lia|].
    destruct (run_step body_cost ma r l fuel 100%Z p t0 Ca Hf Hp Sa)
      as (F1 & m1 & R1 & C1 & N1 & D1 & S1).
    unfold t0 in D1, S1. rewrite due_fresh_100 in D1, S1.
    destruct (Z.leb_spec 100 100) as [_|?]; [|lia].
    rewrite fire_fresh_100 in S1. fold t1 in S1.
    destruct (run_step body_cost m1 r l fuel 100%Z p t1 C1 Hf Hp S1)
      as (F1' & m1' & R1' & C1' & _ & D1' & S1').
    unfold t1 in D1', S1'. rewrite due_fired_100 in D1', S1'.
    destruct (Z.leb_spec 200 100) as [?|_]; [lia|].
    destruct (run_step body_cost m1' r l fuel b p t1 C1' Hf Hp S1')
      as (Fb & mb & Rb & Cb & _ & Db & Sb).
    unfold t1 in Db, Sb. rewrite due_fired_100 in Db, Sb.
    destruct (Z.leb_spec 200 b) as [?|_]; [lia|].
    destruct (run_step body_cost mb r l fuel 200%Z p t1 Cb Hf Hp Sb)
      as (F2 & m2 & R2 & C2 & _ & D2 & S2).
    unfold t1 in D2. rewrite due_fired_100 in D2.
    destruct (Z.leb_spec 200 200) as [_|?]; [|lia].
    exists F0, Fa, F1, F1', Fb, F2, m2. split.
    { repeat (eapply run_ticks_cons; [eassumption|]). reflexivity. }
    split; [by rewrite D0|]. split; [by rewrite Da|].
    split; [by apply D1|]. split; [done|].
    split; [by rewrite D1'|]. split; [by rewrite Db|]. by apply D2.
Qed.

Lemma run_fires_exactly_when_due_witness :
  chain (<[1%N := Live (mkTask 5 100 true 0 0 0 NULL)]> heap1) (Head reg1) [1%N] /\
  length [1%N] < 2 /\
  (forall now_tick, exists fired (m' : mem),
     run cost2 2 reg1 now_tick
       (<[1%N := Live (mkTask 5 100 true 0 0 0 NULL)]> heap1) = Ok fired m' /\
     NoDup fired /\
     forall q t, q ∈ [1%N] ->
       <[1%N := Live (mkTask 5 100 true 0 0 0 NULL)]> heap1 !! q = Some (Live t) ->
       (State t = true ->
          (q ∈ fired <-> (elapsed now_tick t + TimeError t >= Time t)%Z)) /\
       (State t = false -> (q ∉ fired)) /\
       (q ∈ fired -> m' !! q = Some (Live (fire cost2 now_tick t))) /\
       (q ∉ fired -> m' !! q = Some (Live t))) /\
  1%N ∈ [1%N] /\
  <[1%N := Live (mkTask 5 100 true 0 0 0 NULL)]> heap1 !! 1%N
  = Some (Live (mkTask 5 100 true 0 0 0 NULL)) /\
  (0 <= 50 < 100)%Z /\ (100 <= 150 < 200)%Z /\
  exists F0 Fa F100 F100' Fb F200 (m' : mem),
    run_ticks cost2 2 reg1 [0; 50; 100; 100; 150; 200]%Z
      (<[1%N := Live (mkTask 5 100 true 0 0 0 NULL)]> heap1)
    = Ok [F0; Fa; F100; F100'; Fb; F200] m' /\
    (1%N ∉ F0) /\ (1%N ∉ Fa) /\
    1%N ∈ F100 /\ NoDup F100 /\ (1%N ∉ F100') /\
    (1%N ∉ Fb) /\
    1%N ∈ F200.
Proof.
  set (m := <[1%N := Live (mkTask 5 100 true 0 0 0 NULL)]> heap1).
  assert (chain m (Head reg1) [1%N]) as Hc
    by (apply (walk_chain _ _ _ 5); reflexivity).
  assert (length [1%N] < 2) as Hf by (simpl; lia).
  assert (1%N ∈ [1%N]) as Hp by (apply (bool_decide_unpack _); vm_compute; exact I).
  assert (m !! 1%N = Some (Live (mkTask 5 100 true 0 0 0 NULL))) as Ht
    by reflexivity.
  assert (0 <= 50 < 100)%Z as Ha by lia.
  assert (100 <= 150 < 200)%Z as Hb by lia.
  split; [exact Hc|]. split; [exact Hf|].
  split; [exact (proj1 (run_fires_exactly_when_due cost2 m reg1 [1%N] 2 Hc Hf))|].
  do 4 (split; [done|]).
  exact (proj2 (run_fires_exactly_when_due cost2 m reg1 [1%N] 2 Hc Hf)
           1%N 5%N NULL 50%Z 150%Z Hp Ht Ha Hb).
Defined.

(** * Further properties of the registry functions *)

(** ** Reading computations backwards *)

Lemma bind_Ok_inv {A B} (c : M A) (k : A -> M B) (m m'' : mem) b :
  bind c k m = Ok b m'' -> exists a (m' : mem), c m = Ok a m' /\ k a m' = Ok b m''.
Proof. unfold bind. destruct (c m) as [a m'| |]; [eauto|done|done]. Qed.

Lemma load_Ok_inv p (m m' : mem) t :
  load p m = Ok t m' -> m' = m /\ p <> NULL /\ m !! p = Some (Live t).
Proof.
  unfold load. destruct (decide (p = NULL)); [done|].
  destruct (m !! p) as [[t0|]|]; try done. by intros [= -> ->].
Qed.

Lemma modify_Ok_inv p f (m m' : mem) u :
  modify p f m = Ok u m' ->
  p <> NULL /\ exists t, m !! p = Some (Live t) /\ m' = <[p := Live (f t)]> m.
Proof.
  unfold modify. intros H. apply bind_Ok_inv in H as (t & m0 & Hl & H).
  apply load_Ok_inv in Hl as (-> & Hp & Ht). injection H as <-. eauto.
Qed.

(** ** Lookup *)

Lemma first_match_cons (m : mem) func a l t :
  m !! a = Some (Live t) ->
  first_match m func (a :: l)
  = if decide (Function t = func) then a else first_match m func l.
Proof. intros Ht. simpl. unfold task_at. by rewrite Ht. Qed.

Lemma first_match_split (m : mem) p l func :
  chain m p l -> first_match m func l <> NULL ->
  exists l1 l2 t,
    l = l1 ++ first_match m func l :: l2 /\
    m !! first_match m func l = Some (Live t) /\ Function t = func /\
    func ∉ funcs m l1.
Proof.
  revert p. induction l as [|a l IH]; intros p Hc Hn; [done|].
  destruct Hc as (-> & Ha & t & Ht & Hc). revert Hn.
  rewrite (first_match_cons m func a l t Ht).
  destruct (decide (Function t = func)) as [E|E]; intros Hn.
  - exists [], l, t. split; [done|]. split; [done|]. split; [done|].
    intros H. apply funcs_elem in H as (q & ? & Hq & _). by apply elem_of_nil in Hq.
  - destruct (IH _ Hc Hn) as (l1 & l2 & t' & El & Ht' & Ef & Hnin).
    exists (a :: l1), l2, t'. split; [by rewrite El at 1|].
    split; [done|]. split; [done|].
    intros H. apply funcs_elem in H as (q & tq & Hq & Htq & Eq).
    apply elem_of_cons in Hq as [->|Hq].
    + rewrite Ht in Htq. injection Htq as <-. done.
    + apply Hnin, funcs_elem. eauto.
Qed.

(** X1: on a registry whose sequence is [l], [TaskFind] leaves the heap
    as it is and returns [NULL] exactly when no node of the sequence has
    the identity; otherwise it returns the first node of the sequence whose
    [Function] is the identity: no node before it has it. *)
Theorem TaskFind_returns_first_match (m : mem) r l func fuel :
  chain m (Head r) l -> length l < fuel ->
  exists task,
    TaskFind fuel r func m = Ok task m /\
    (task = NULL <-> func ∉ funcs m l) /\
    (task <> NULL ->
       exists l1 l2 t,
         l = l1 ++ task :: l2 /\
         m !! task = Some (Live t) /\ Function t = func /\
         func ∉ funcs m l1).
Proof.
  intros Hc Hf. exists (first_match m func l).
  split; [by apply TaskFind_chain|]. split.
  - split.
    + intros E Hin.
      destruct (first_match_found _ _ _ _ Hc Hin) as (_ & Hn & _). done.
    + by apply (first_match_absent m (Head r)).
  - by apply (first_match_split m (Head r)).
Qed.

Lemma TaskFind_returns_first_match_witness :
  chain heap2 (Head reg2) [1%N; 2%N] /\ length [1%N; 2%N] < 3 /\
  exists task,
    TaskFind 3 reg2 6 heap2 = Ok task heap2 /\
    (task = NULL <-> 6%N ∉ funcs heap2 [1%N; 2%N]) /\
    (task <> NULL ->
       exists l1 l2 t,
         [1%N; 2%N] = l1 ++ task :: l2 /\
         heap2 !! task = Some (Live t) /\ Function t = 6%N /\
         6%N ∉ funcs heap2 l1).
Proof.
  assert (chain heap2 (Head reg2) [1%N; 2%N]) as Hc
    by (apply (walk_chain _ _ _ 5); reflexivity).
  assert (length [1%N; 2%N] < 3) as Hf by (simpl; lia).
  split; [exact Hc|]. split; [exact Hf|].
  exact (TaskFind_returns_first_match heap2 reg2 [1%N; 2%N] 6%N 3 Hc Hf).
Defined.

Lemma TaskFind_loop_sound fuel : forall func p (m m' : mem) task,
  TaskFind_loop fuel func p m = Ok task m' ->
  m' = m /\
  (task <> NULL -> exists t, m !! task = Some (Live t) /\ Function t = func).
Proof.
  induction fuel as [|fuel IH]; intros func p m m' task; simpl; [done|].
  destruct (decide (p = NULL)).
  - intros [= <- <-]. done.
  - intros H. apply bind_Ok_inv in H as (t & m0 & Hl & H).
    apply load_Ok_inv in Hl as (-> & Hp & Ht).
    destruct (decide (Function t = func)).
    + injection H as <- <-. eauto.
    + by apply IH in H.
Qed.

(** X2: on any heap, well formed or not, a call of [TaskFind] that
    returns has not written to the heap, and a result other than [NULL] is
    a live node whose [Function] is the identity asked for. *)
Theorem TaskFind_sound_on_any_heap (m m' : mem) r func fuel task :
  TaskFind fuel r func m = Ok task m' ->
  m' = m /\
  (task <> NULL -> exists t, m !! task = Some (Live t) /\ Function t = func).
Proof. apply TaskFind_loop_sound. Qed.

Lemma TaskFind_sound_on_any_heap_witness :
  TaskFind 7 reg1 6 heap_cycle = Ok 2%N heap_cycle /\
  heap_cycle = heap_cycle /\
  (2%N <> NULL ->
   exists t, heap_cycle !! 2%N = Some (Live t) /\ Function t = 6%N).
Proof.
  assert (TaskFind 7 reg1 6 heap_cycle = Ok 2%N heap_cycle) as H by reflexivity.
  split; [exact H|].
  exact (TaskFind_sound_on_any_heap heap_cycle heap_cycle reg1 6%N 7 2%N H).
Defined.

(** ** Predecessor lookup *)

Lemma prev_in_absent task prev (l : list ptr) :
  task ∉ l -> prev_in task prev l = NULL.
Proof.
  revert prev. induction l as [|a l IH]; intros prev Hn; [done|]. simpl.
  destruct (decide (a = task)) as [->|Hne].
  - exfalso. apply Hn. left.
  - apply IH. intros H. apply Hn. by right.
Qed.

Lemma prev_in_present (m : mem) p l task prev :
  chain m p l -> task ∈ l ->
  (task = p /\ prev_in task prev l = prev) \/
  (task <> p /\ prev_in task prev l ∈ l /\ prev_in task prev l <> NULL /\
   exists t, m !! prev_in task prev l = Some (Live t) /\ Next t = task).
Proof.
  revert p prev. induction l as [|a l IH]; intros p prev Hc Hin.
  - by apply elem_of_nil in Hin.
  - destruct Hc as (-> & Ha & t & Ht & Hc). simpl.
    destruct (decide (a = task)) as [->|Hne]; [by left|].
    apply elem_of_cons in Hin as [->|Hin]; [done|].
    right. split; [done|].
    destruct (IH _ a Hc Hin) as [(E & ->)|(_ & H1 & H2 & H3)].
    + split; [left|]. split; [done|]. exists t. done.
    + split; [by right|]. done.
Qed.

(** X3: on a registry whose sequence is [l], [GetPrev] leaves the heap as
    it is.  For a node of the sequence it returns the node whose [Next] is
    that node, or [NULL] when the node is the head; for a pointer that is
    not in the sequence it returns [NULL] as well, so a [NULL] result does
    not tell the head from a missing node. *)
Theorem GetPrev_returns_predecessor (m : mem) r l task fuel :
  chain m (Head r) l -> length l < fuel ->
  exists prev,
    GetPrev fuel r task m = Ok prev m /\
    (task ∉ l -> prev = NULL) /\
    (task ∈ l -> task = Head r -> prev = NULL) /\
    (task ∈ l -> task <> Head r ->
       prev ∈ l /\ prev <> NULL /\
       exists t, m !! prev = Some (Live t) /\ Next t = task).
Proof.
  intros Hc Hf. exists (prev_in task NULL l).
  split; [by apply GetPrev_loop_chain|].
  split; [apply prev_in_absent|]. split.
  - intros Hin E.
    destruct (prev_in_present m _ l task NULL Hc Hin) as [(_ & H)|(H & _)]; done.
  - intros Hin E.
    destruct (prev_in_present m _ l task NULL Hc Hin) as [(H & _)|(_ & H)]; done.
Qed.

Lemma GetPrev_returns_predecessor_witness :
  chain heap2 (Head reg2) [1%N; 2%N] /\ length [1%N; 2%N] < 3 /\
  exists prev,
    GetPrev 3 reg2 2 heap2 = Ok prev heap2 /\
    (2%N ∉ [1%N; 2%N] -> prev = NULL) /\
    (2%N ∈ [1%N; 2%N] -> 2%N = Head reg2 -> prev = NULL) /\
    (2%N ∈ [1%N; 2%N] -> 2%N <> Head reg2 ->
       prev ∈ [1%N; 2%N] /\ prev <> NULL /\
       exists t, heap2 !! prev = Some (Live t) /\ Next t = 2%N).
Proof.
  assert (chain heap2 (Head reg2) [1%N; 2%N]) as Hc
    by (apply (walk_chain _ _ _ 5); reflexivity).
  assert (length [1%N; 2%N] < 3) as Hf by (simpl; lia).
  split; [exact Hc|]. split; [exact Hf|].
  exact (GetPrev_returns_predecessor heap2 reg2 [1%N; 2%N] 2%N 3 Hc Hf).
Defined.

Lemma GetPrev_loop_sound fuel : forall task now prev (m m' : mem) res,
  GetPrev_loop fuel task now prev m = Ok res m' ->
  (prev = NULL \/ exists t, m !! prev = Some (Live t) /\ Next t = now) ->
  m' = m /\
  (res <> NULL -> exists t, m !! res = Some (Live t) /\ Next t = task).
Proof.
  induction fuel as [|fuel IH]; intros task now prev m m' res; simpl; [done|].
  destruct (decide (now = NULL)).
  - intros [= <- <-] _. done.
  - destruct (decide (now = task)) as [->|Hne].
    + intros [= <- <-] [->|H]; [done|]. done.
    + intros H _. apply bind_Ok_inv in H as (t & m0 & Hl & H).
      apply load_Ok_inv in Hl as (-> & Hp & Ht).
      apply IH in H; [done|]. right. eauto.
Qed.

(** X4: on any heap, a call of [GetPrev] that returns has not written to
    the heap, and a result other than [NULL] is a live node whose [Next] is
    the node asked for. *)
Theorem GetPrev_sound_on_any_heap (m m' : mem) r task fuel prev :
  GetPrev fuel r task m = Ok prev m' ->
  m' = m /\
  (prev <> NULL -> exists t, m !! prev = Some (Live t) /\ Next t = task).
Proof. intros H. apply (GetPrev_loop_sound _ _ _ _ _ _ _ H). by left. Qed.

Lemma GetPrev_sound_on_any_heap_witness :
  GetPrev 7 reg1 2 heap_cycle = Ok 1%N heap_cycle /\
  heap_cycle = heap_cycle /\
  (1%N <> NULL ->
   exists t, heap_cycle !! 1%N = Some (Live t) /\ Next t = 2%N).
Proof.
  assert (GetPrev 7 reg1 2 heap_cycle = Ok 1%N heap_cycle) as H by reflexivity.
  split; [exact H|].
  exact (GetPrev_sound_on_any_heap heap_cycle heap_cycle reg1 2%N 7 1%N H).
Defined.

(** ** Cyclic sequences *)

(** X5: the traversals have no bound of their own.  When the nodes
    reachable from [Head] are live and never reach [NULL] (a set of nodes
    closed under [Next], as in a cycle), [TaskFind] for an identity that
    none of them has and [GetPrev] for a node that is not among them run
    out of every iteration budget: they do not return. *)
Theorem lookups_do_not_return_on_a_cycle (m : mem) r (S : ptr -> Prop) :
  (forall q, S q -> q <> NULL /\ exists t, m !! q = Some (Live t) /\ S (Next t)) ->
  S (Head r) ->
  (forall func,
     (forall q t, S q -> m !! q = Some (Live t) -> Function t <> func) ->
     forall fuel, TaskFind fuel r func m = OutOfFuel) /\
  (forall task, ~ S task -> forall fuel, GetPrev fuel r task m = OutOfFuel).
Proof.
  intros Hcl Hh. split.
  - intros func Hfn fuel. unfold TaskFind. generalize (Head r) Hh.
    induction fuel as [|fuel IH]; intros p Hp; [done|]. simpl.
    destruct (Hcl p Hp) as (Hn & t & Ht & Hnext).
    destruct (decide (p = NULL)); [done|].
    rewrite (bind_Ok _ _ _ _ _ (load_live p t m Hn Ht)).
    destruct (decide (Function t = func)) as [E|_].
    + by destruct (Hfn p t Hp Ht).
    + by apply IH.
  - intros task Htask fuel. unfold GetPrev.
    enough (forall p prev, S p -> GetPrev_loop fuel task p prev m = OutOfFuel)
      as H by (by apply H).
    induction fuel as [|fuel IH]; intros p prev Hp; [done|]. simpl.
    destruct (Hcl p Hp) as (Hn & t & Ht & Hnext).
    destruct (decide (p = NULL)); [done|].
    destruct (decide (p = task)) as [->|_]; [done|].
    rewrite (bind_Ok _ _ _ _ _ (load_live p t m Hn Ht)).
    by apply IH.
Qed.

Lemma lookups_do_not_return_on_a_cycle_witness :
  (forall q, (q = 1%N \/ q = 2%N) ->
     q <> NULL /\
     exists t, heap_cycle !! q = Some (Live t) /\ (Next t = 1%N \/ Next t = 2%N)) /\
  (Head reg1 = 1%N \/ Head reg1 = 2%N) /\
  (forall func,
     (forall q t, (q = 1%N \/ q = 2%N) -> heap_cycle !! q = Some (Live t) ->
        Function t <> func) ->
     forall fuel, TaskFind fuel reg1 func heap_cycle = OutOfFuel) /\
  (forall task, ~ (task = 1%N \/ task = 2%N) ->
     forall fuel, GetPrev fuel reg1 task heap_cycle = OutOfFuel).
Proof.
  assert (forall q, (q = 1%N \/ q = 2%N) ->
     q <> NULL /\
     exists t, heap_cycle !! q = Some (Live t) /\ (Next t = 1%N \/ Next t = 2%N))
    as Hcl.
  { intros q [->| ->]; (split; [done|]); eexists; (split; [reflexivity|]);
      simpl; auto. }
  assert (Head reg1 = 1%N \/ Head reg1 = 2%N) as Hh by (left; reflexivity).
  split; [exact Hcl|]. split; [exact Hh|].
  exact (lookups_do_not_return_on_a_cycle heap_cycle reg1
           (fun q => q = 1%N \/ q = 2%N) Hcl Hh).
Defined.

(** ** Registration on any heap *)

Lemma alloc_Ok_inv malloc uninit (m m' : mem) p :
  alloc malloc uninit m = Ok p m' ->
  (p = NULL /\ malloc m = NULL /\ m' = m) \/
  (p <> NULL /\ p = malloc m /\ m' = <[p := Live (uninit m)]> m).
Proof.
  unfold alloc. destruct (decide (malloc m = NULL)) as [E|E].
  - intros [= <- <-]. by left.
  - intros [= <- <-]. by right.
Qed.

(** X6: on any heap and for any registry value, when [TaskRegister]
    returns a pointer other than [NULL], that pointer is a live Task whose
    [Function], [Time] and [State] are the three arguments of the call. *)
Theorem TaskRegister_handle_holds_arguments
    malloc uninit (m m' : mem) r func timeMs state fuel task :
  TaskRegister malloc uninit fuel r func timeMs state m = Ok task m' ->
  task <> NULL ->
  exists t, m' !! task = Some (Live t) /\
            Function t = func /\ Time t = timeMs /\ State t = state.
Proof.
  unfold TaskRegister. intros H Hn.
  apply bind_Ok_inv in H as ([tk r'] & m1 & H & E). injection E as <- <-.
  simpl in Hn. unfold TaskRegister_body in H.
  apply bind_Ok_inv in H as (found & m0 & Hfind & H).
  unfold TaskFind in Hfind. apply TaskFind_loop_sound in Hfind as (-> & Hfound).
  destruct (decide (found <> NULL)) as [Hf|Hf].
  - destruct (Hfound Hf) as (t & Ht & Efn).
    apply bind_Ok_inv in H as (u1 & m2 & H1 & H).
    apply bind_Ok_inv in H as (u2 & m3 & H2 & H). injection H as <- <- <-.
    apply modify_Ok_inv in H1 as (_ & t1 & Ht1 & ->).
    apply modify_Ok_inv in H2 as (_ & t2 & Ht2 & ->).
    rewrite lookup_insert_eq in Ht2. injection Ht2 as <-.
    rewrite Ht in Ht1. injection Ht1 as <-.
    eexists. split; [apply lookup_insert_eq|]. done.
  - apply bind_Ok_inv in H as (p & ma & Ha & H).
    apply alloc_Ok_inv in Ha as [(-> & _ & ->)|(Hp & Ep & ->)].
    { destruct (decide (NULL = NULL)); [|done]. by injection H as <-. }
    destruct (decide (p = NULL)); [done|].
    rewrite init_new_task in H; [|done].
    apply bind_Ok_inv in H as (r2 & m2 & Hlink & H). injection H as <- <- <-.
    destruct (decide (Head r = NULL)).
    + injection Hlink as <- <-. eexists. split; [apply lookup_insert_eq|]. done.
    + apply bind_Ok_inv in Hlink as (u & m3 & Hmod & E). injection E as <- <-.
      apply modify_Ok_inv in Hmod as (_ & tl & Htl & ->).
      destruct (decide (Tail r = p)) as [Et|Et].
      * rewrite Et in *. rewrite lookup_insert_eq in Htl. injection Htl as <-.
        eexists. split; [apply lookup_insert_eq|]. done.
      * eexists. rewrite lookup_insert_ne; [|done].
        split; [apply lookup_insert_eq|]. done.
Qed.

Lemma TaskRegister_handle_holds_arguments_witness :
  TaskRegister malloc3 junk 7 reg1 8 250 false heap2
  = Ok 3%N (<[1%N := Live (set_Next 3 (sample_task 5 2))]>
              (<[3%N := Live (mkTask 8 250 false 0 0 0 NULL)]> heap2)) /\
  3%N <> NULL /\
  exists t,
    <[1%N := Live (set_Next 3 (sample_task 5 2))]>
      (<[3%N := Live (mkTask 8 250 false 0 0 0 NULL)]> heap2) !! 3%N
    = Some (Live t) /\
    Function t = 8%N /\ Time t = 250%Z /\ State t = false.
Proof.
  assert (TaskRegister malloc3 junk 7 reg1 8 250 false heap2
          = Ok 3%N (<[1%N := Live (set_Next 3 (sample_task 5 2))]>
                      (<[3%N := Live (mkTask 8 250 false 0 0 0 NULL)]> heap2)))
    as H by reflexivity.
  assert (3%N <> NULL) as Hn by done.
  split; [exact H|]. split; [exact Hn|].
  exact (TaskRegister_handle_holds_arguments malloc3 junk heap2 _ reg1
           8%N 250%Z false 7 3%N H Hn).
Defined.

(** X7: [TaskRegister] writes every field that the source names
    ([Function], [Time], [State], [TimePrev], [TimeCost], [TimeError],
    [Next]) into the block it allocates before using it, so nothing of what
    [malloc] left in those fields survives: the outcome of a call is the
    same whatever the fresh block contained. *)
Theorem TaskRegister_ignores_block_contents
    malloc uninit1 uninit2 (m : mem) r func timeMs state fuel :
  TaskRegister malloc uninit1 fuel r func timeMs state m
  = TaskRegister malloc uninit2 fuel r func timeMs state m.
Proof.
  enough (TaskRegister_body malloc uninit1 fuel r func timeMs state m
          = TaskRegister_body malloc uninit2 fuel r func timeMs state m) as E
    by (unfold TaskRegister, bind; by rewrite E).
  unfold TaskRegister_body.
  destruct (TaskFind fuel r func m) as [found m0|f|] eqn:Hfind.
  - rewrite !(bind_Ok _ _ _ _ _ Hfind).
    destruct (decide (found <> NULL)); [done|].
    destruct (decide (malloc m0 = NULL)) as [E|E].
    + rewrite (bind_Ok _ _ _ _ _ (alloc_fails malloc uninit1 m0 E)).
      by rewrite (bind_Ok _ _ _ _ _ (alloc_fails malloc uninit2 m0 E)).
    + rewrite (bind_Ok _ _ _ _ _ (alloc_succeeds malloc uninit1 m0 E)).
      rewrite (bind_Ok _ _ _ _ _ (alloc_succeeds malloc uninit2 m0 E)).
      destruct (decide (malloc m0 = NULL)); [done|].
      rewrite !init_new_task; done.
  - unfold bind. by rewrite Hfind.
  - unfold bind. by rewrite Hfind.
Qed.

(** ** Registration and lookup together *)

Lemma first_match_agree (m m' : mem) func l :
  (forall q, q ∈ l -> Function <$> task_at m' q = Function <$> task_at m q) ->
  first_match m' func l = first_match m func l.
Proof.
  induction l as [|a l IH]; intros H; [done|]. simpl.
  assert (Function <$> task_at m' a = Function <$> task_at m a) as Ha
    by (apply H; left).
  rewrite IH; [|intros q Hq; apply H; by right].
  destruct (task_at m' a) as [t'|], (task_at m a) as [t|];
    simpl in Ha; try discriminate; [|done].
  injection Ha as Ha. by rewrite Ha.
Qed.

Lemma first_match_app_other (m : mem) g l p new :
  (forall q, q ∈ l -> exists t, m !! q = Some (Live t)) ->
  m !! p = Some (Live new) -> Function new <> g ->
  first_match m g (l ++ [p]) = first_match m g l.
Proof.
  intros Hl Hp Hg. induction l as [|a l IH].
  - simpl. unfold task_at. rewrite Hp. by destruct (decide (Function new = g)).
  - destruct (Hl a) as (t & Ht); [left|].
    change ((a :: l) ++ [p]) with (a :: (l ++ [p])).
    rewrite !(first_match_cons m g a _ t Ht).
    destruct (decide (Function t = g)); [done|].
    apply IH. intros q Hq. apply Hl. by right.
Qed.

(** The heap after linking [p] behind [Tail] keeps the identity of every
    node other than [p]. *)
Lemma link_keeps_functions (m : mem) (tail : ptr) tl (p : ptr) new (q : ptr) :
  m !! tail = Some (Live tl) -> q <> p ->
  Function <$> task_at (<[tail := Live (set_Next p tl)]> (<[p := Live new]> m)) q
  = Function <$> task_at m q.
Proof.
  intros Ht Hq. unfold task_at.
  destruct (decide (q = tail)) as [->|Hne].
  - rewrite lookup_insert_eq. simpl. by rewrite Ht.
  - rewrite lookup_insert_ne; [|done]. by rewrite lookup_insert_ne.
Qed.

(** X8: registering an already registered identity twice is the same as
    registering it once with the values of the second call, and [TaskFind]
    afterwards returns the handle that both calls returned. *)
Theorem TaskRegister_last_update_wins
    malloc uninit (m : mem) r l func timeMs1 state1 timeMs2 state2 fuel :
  chain m (Head r) l -> func ∈ funcs m l -> length l < fuel ->
  exists task (m1 m2 : mem),
    TaskRegister malloc uninit fuel r func timeMs1 state1 m = Ok task m1 /\
    TaskRegister malloc uninit fuel r func timeMs2 state2 m1 = Ok task m2 /\
    TaskRegister malloc uninit fuel r func timeMs2 state2 m = Ok task m2 /\
    TaskFind fuel r func m2 = Ok task m2.
Proof.
  intros Hc Hin Hf.
  destruct (first_match_found _ _ _ _ Hc Hin) as (Hl & Hn & t & Ht & Ef).
  set (task := first_match m func l) in *.
  assert (forall t', Function t' = Function t -> Next t' = Next t ->
            chain (<[task := Live t']> m) (Head r) l /\
            first_match (<[task := Live t']> m) func l = task) as Hupd.
  { intros t' E1 E2. split.
    - eapply chain_agree; [done|]. intros q tq Hq Hq'.
      destruct (decide (q = task)) as [->|Hne].
      + exists t'. rewrite lookup_insert_eq. split; [done|].
        rewrite Ht in Hq'. by injection Hq' as <-.
      + exists tq. by rewrite lookup_insert_ne.
    - apply first_match_agree. intros q Hq. unfold task_at.
      destruct (decide (q = task)) as [->|Hne].
      + rewrite lookup_insert_eq, Ht. simpl. by rewrite E1.
      + by rewrite lookup_insert_ne. }
  set (t1 := set_State state1 (set_Time timeMs1 t)).
  set (t2 := set_State state2 (set_Time timeMs2 t)).
  destruct (Hupd t1 eq_refl eq_refl) as (Hc1 & Hm1).
  destruct (Hupd t2 eq_refl eq_refl) as (Hc2 & Hm2).
  exists task, (<[task := Live t1]> m), (<[task := Live t2]> m).
  split. { eapply TaskRegister_of_body. by eapply TaskRegister_body_found. }
  split.
  { eapply TaskRegister_of_body.
    pose proof (TaskRegister_body_found malloc uninit _ r l func timeMs2 state2
                  fuel t1 Hc1 Hf) as Hb.
    rewrite Hm1 in Hb. rewrite Hb; [|done|apply lookup_insert_eq].
    by rewrite insert_insert_eq. }
  split. { eapply TaskRegister_of_body. by eapply TaskRegister_body_found. }
  rewrite (TaskFind_chain _ r l func fuel Hc2 Hf). by rewrite Hm2.
Qed.

Lemma TaskRegister_last_update_wins_witness :
  chain heap2 (Head reg2) [1%N; 2%N] /\ 6%N ∈ funcs heap2 [1%N; 2%N] /\
  length [1%N; 2%N] < 3 /\
  exists task (m1 m2 : mem),
    TaskRegister malloc3 junk 3 reg2 6 25 false heap2 = Ok task m1 /\
    TaskRegister malloc3 junk 3 reg2 6 40 true m1 = Ok task m2 /\
    TaskRegister malloc3 junk 3 reg2 6 40 true heap2 = Ok task m2 /\
    TaskFind 3 reg2 6 m2 = Ok task m2.
Proof.
  assert (chain heap2 (Head reg2) [1%N; 2%N]) as Hc
    by (apply (walk_chain _ _ _ 5); reflexivity).
  assert (6%N ∈ funcs heap2 [1%N; 2%N]) as Hin
    by (apply (bool_decide_unpack _); vm_compute; exact I).
  assert (length [1%N; 2%N] < 3) as Hf by (simpl; lia).
  split; [exact Hc|]. split; [exact Hin|]. split; [exact Hf|].
  exact (TaskRegister_last_update_wins malloc3 junk heap2 reg2 [1%N; 2%N]
           6%N 25%Z false 40%Z true 3 Hc Hin Hf).
Defined.

(** X9: on a registry whose sequence is [l] and whose [Tail] is its last
    node, [TaskRegister] of one identity, whichever path it takes, does not
    change what [TaskFind] returns for any other identity. *)
Theorem TaskRegister_keeps_other_lookups
    malloc uninit (m : mem) r l func g timeMs state fuel :
  chain m (Head r) l -> tail_ok r l -> length l < fuel ->
  malloc_fresh malloc m -> g <> func ->
  exists task (m' : mem) found,
    TaskRegister malloc uninit fuel r func timeMs state m = Ok task m' /\
    TaskFind fuel r g m = Ok found m /\
    TaskFind (S fuel) r g m' = Ok found m'.
Proof.
  intros Hc Ht Hf Hfr Hg.
  pose proof (TaskFind_chain m r l g fuel Hc Hf) as Hfind.
  destruct (decide (func ∈ funcs m l)) as [Hin|Hnin].
  - destruct (first_match_found _ _ _ _ Hc Hin) as (Hl & Hn & t & Htk & Ef).
    set (task := first_match m func l) in *.
    set (t' := set_State state (set_Time timeMs t)).
    exists task, (<[task := Live t']> m), (first_match m g l).
    split. { eapply TaskRegister_of_body. by eapply TaskRegister_body_found. }
    split; [done|].
    assert (chain (<[task := Live t']> m) (Head r) l) as Hc'.
    { eapply chain_agree; [done|]. intros q tq Hq Hq'.
      destruct (decide (q = task)) as [->|Hne].
      - exists t'. rewrite lookup_insert_eq. split; [done|].
        rewrite Htk in Hq'. by injection Hq' as <-.
      - exists tq. by rewrite lookup_insert_ne. }
    rewrite (TaskFind_chain _ r l g (S fuel) Hc'); [|lia].
    f_equal. apply first_match_agree. intros q Hq. unfold task_at.
    destruct (decide (q = task)) as [->|Hne].
    + by rewrite lookup_insert_eq, Htk.
    + by rewrite lookup_insert_ne.
  - pose proof (first_match_absent _ _ _ _ Hc Hnin) as Hfm.
    destruct (decide (malloc m = NULL)) as [Hm|Hm].
    { exists NULL, m, (first_match m g l).
      split. { eapply TaskRegister_of_body. by eapply TaskRegister_body_oom. }
      split; [done|]. apply TaskFind_chain; [done|lia]. }
    pose proof (fresh_not_in_chain malloc m _ l Hc Hm Hfr) as Hpl.
    set (p := malloc m) in *.
    set (new := mkTask func timeMs state 0 0 0 NULL).
    destruct (decide (Head r = NULL)) as [Hh|Hh].
    + exists p, (<[p := Live new]> m), (first_match m g l).
      split.
      { eapply TaskRegister_of_body.
        apply TaskRegister_body_new_empty; [done|lia|done]. }
      split; [done|].
      rewrite Hh in Hc. apply chain_null in Hc as ->.
      assert (chain (<[p := Live new]> m) (Head r) []) as Hc' by done.
      by rewrite (TaskFind_chain _ r [] g (S fuel) Hc'); [|simpl; lia].
    + destruct (tail_live _ _ _ Hc Ht Hh) as (Hlast & Hin & Htn & tl & Htl).
      assert (Tail r <> p) as Hne by (intros E; apply Hpl; by rewrite <- E).
      set (m' := <[Tail r := Live (set_Next p tl)]> (<[p := Live new]> m)).
      assert (chain m' (Head r) (l ++ [p])) as Hc' by (by apply chain_snoc).
      exists p, m', (first_match m g l).
      split. { eapply TaskRegister_of_body. by eapply TaskRegister_body_new_append. }
      split; [done|].
      rewrite (TaskFind_chain m' r (l ++ [p]) g (S fuel) Hc').
      2:{ rewrite length_app. simpl. lia. }
      f_equal. rewrite (first_match_app_other m' g l p new).
      * apply first_match_agree. intros q Hq.
        apply link_keeps_functions; [done|]. intros ->. done.
      * intros q Hq. apply (chain_live m' _ (l ++ [p]) q Hc').
        apply elem_of_app. by left.
      * unfold m'. rewrite lookup_insert_ne; [|done]. apply lookup_insert_eq.
      * simpl. congruence.
Qed.

Lemma TaskRegister_keeps_other_lookups_witness :
  chain heap2 (Head reg2) [1%N; 2%N] /\ tail_ok reg2 [1%N; 2%N] /\
  length [1%N; 2%N] < 3 /\ malloc_fresh malloc3 heap2 /\ 6%N <> 7%N /\
  exists task (m' : mem) found,
    TaskRegister malloc3 junk 3 reg2 7 100 true heap2 = Ok task m' /\
    TaskFind 3 reg2 6 heap2 = Ok found heap2 /\
    TaskFind 4 reg2 6 m' = Ok found m'.
Proof.
  assert (chain heap2 (Head reg2) [1%N; 2%N]) as Hc
    by (apply (walk_chain _ _ _ 5); reflexivity).
  assert (tail_ok reg2 [1%N; 2%N]) as Ht by (intros _; reflexivity).
  assert (length [1%N; 2%N] < 3) as Hf by (simpl; lia).
  assert (malloc_fresh malloc3 heap2) as Hfr
    by (intros _ t; vm_compute; discriminate).
  assert (6%N <> 7%N) as Hg by done.
  do 5 (split; [done|]).
  exact (TaskRegister_keeps_other_lookups malloc3 junk heap2 reg2 [1%N; 2%N]
           7%N 6%N 100%Z true 3 Hc Ht Hf Hfr Hg).
Defined.

(** X10: the uniqueness of identities is not kept on an empty registry.
    The caller's registry stays empty after a first [TaskRegister], so a
    second [TaskRegister] of the same identity does not find the first Task
    and allocates another: two distinct live Tasks hold the identity, and
    [TaskFind] on the caller's registry finds neither. *)
Theorem TaskRegister_twice_on_empty_registry
    malloc uninit (m : mem) r func timeMs1 state1 timeMs2 state2 fuel :
  Head r = NULL -> 0 < fuel -> malloc m <> NULL ->
  malloc (<[malloc m := Live (mkTask func timeMs1 state1 0 0 0 NULL)]> m) <> NULL ->
  malloc_fresh malloc
    (<[malloc m := Live (mkTask func timeMs1 state1 0 0 0 NULL)]> m) ->
  exists p1 p2 (m1 m2 : mem),
    TaskRegister malloc uninit fuel r func timeMs1 state1 m = Ok p1 m1 /\
    TaskRegister malloc uninit fuel r func timeMs2 state2 m1 = Ok p2 m2 /\
    p1 <> NULL /\ p2 <> NULL /\ p1 <> p2 /\
    m2 !! p1 = Some (Live (mkTask func timeMs1 state1 0 0 0 NULL)) /\
    m2 !! p2 = Some (Live (mkTask func timeMs2 state2 0 0 0 NULL)) /\
    TaskFind fuel r func m2 = Ok NULL m2.
Proof.
  intros Hh Hf Hm. set (p1 := malloc m) in *.
  set (m1 := <[p1 := Live (mkTask func timeMs1 state1 0 0 0 NULL)]> m).
  intros Hm1 Hfr. set (p2 := malloc m1) in *.
  set (m2 := <[p2 := Live (mkTask func timeMs2 state2 0 0 0 NULL)]> m1).
  assert (p1 <> p2) as Hne.
  { intros E. apply (Hfr Hm1 (mkTask func timeMs1 state1 0 0 0 NULL)).
    fold p2. rewrite <- E. apply lookup_insert_eq. }
  exists p1, p2, m1, m2.
  split.
  { eapply TaskRegister_of_body. by apply TaskRegister_body_new_empty. }
  split.
  { eapply TaskRegister_of_body. by apply TaskRegister_body_new_empty. }
  do 3 (split; [done|]).
  split. { unfold m2. rewrite lookup_insert_ne; [|done]. apply lookup_insert_eq. }
  split; [apply lookup_insert_eq|].
  assert (chain m2 (Head r) []) as Hc by done.
  by rewrite (TaskFind_chain m2 r [] func fuel Hc Hf).
Qed.

Lemma TaskRegister_twice_on_empty_registry_witness :
  Head reg0 = NULL /\ 0 < 1 /\ malloc34 ∅ <> NULL /\
  malloc34 (<[malloc34 ∅ := Live (mkTask 7 100 true 0 0 0 NULL)]> ∅) <> NULL /\
  malloc_fresh malloc34
    (<[malloc34 ∅ := Live (mkTask 7 100 true 0 0 0 NULL)]> ∅) /\
  exists p1 p2 (m1 m2 : mem),
    TaskRegister malloc34 junk 1 reg0 7 100 true ∅ = Ok p1 m1 /\
    TaskRegister malloc34 junk 1 reg0 7 300 false m1 = Ok p2 m2 /\
    p1 <> NULL /\ p2 <> NULL /\ p1 <> p2 /\
    m2 !! p1 = Some (Live (mkTask 7 100 true 0 0 0 NULL)) /\
    m2 !! p2 = Some (Live (mkTask 7 300 false 0 0 0 NULL)) /\
    TaskFind 1 reg0 7 m2 = Ok NULL m2.
Proof.
  assert (Head reg0 = NULL) as Hh by reflexivity.
  assert (0 < 1) as Hf by lia.
  assert (malloc34 ∅ <> NULL) as Hm by (vm_compute; discriminate).
  assert (malloc34 (<[malloc34 ∅ := Live (mkTask 7 100 true 0 0 0 NULL)]> ∅)
          <> NULL) as Hm1 by (vm_compute; discriminate).
  assert (malloc_fresh malloc34
            (<[malloc34 ∅ := Live (mkTask 7 100 true 0 0 0 NULL)]> ∅)) as Hfr
    by (intros _ t; vm_compute; discriminate).
  do 5 (split; [done|]).
  exact (TaskRegister_twice_on_empty_registry malloc34 junk ∅ reg0
           7%N 100%Z true 300%Z false 1 Hh Hf Hm Hm1 Hfr).
Defined.

(** ** The caller's stale [Tail] *)

(** X11: an insertion leaves the caller's [Tail] on the old last node, so
    a second insertion through the same registry value overwrites that
    node's [Next]: the Task of the first insertion is unlinked.  After
    registering [f] and then [g], both new, on a non-empty registry, the
    sequence is the old one followed by the Task of [g] alone; the Task of
    [f] is still allocated but no longer in the sequence, and [TaskFind]
    does not find [f]. *)
Theorem TaskRegister_second_insert_unlinks_first
    malloc uninit (m m1 : mem) r l f g tf sf tg sg fuel p1 :
  chain m (Head r) l -> tail_ok r l -> Head r <> NULL ->
  (f ∉ funcs m l) -> (g ∉ funcs m l) -> g <> f -> length l + 1 < fuel ->
  malloc m <> NULL -> malloc_fresh malloc m ->
  TaskRegister malloc uninit fuel r f tf sf m = Ok p1 m1 ->
  malloc m1 <> NULL -> malloc_fresh malloc m1 ->
  exists p2 (m2 : mem),
    TaskRegister malloc uninit fuel r g tg sg m1 = Ok p2 m2 /\
    chain m1 (Head r) (l ++ [p1]) /\
    chain m2 (Head r) (l ++ [p2]) /\
    p1 <> p2 /\ (p1 ∉ l ++ [p2]) /\
    m2 !! p1 = Some (Live (mkTask f tf sf 0 0 0 NULL)) /\
    TaskFind fuel r f m1 = Ok p1 m1 /\
    TaskFind fuel r f m2 = Ok NULL m2 /\
    TaskFind fuel r g m2 = Ok p2 m2.
Proof.
  intros Hc Ht Hh Hf Hg Hgf Hfuel Hm Hfr H1 Hm1 Hfr1.
  destruct (tail_live _ _ _ Hc Ht Hh) as (Hlast & Hin & Htn & tl & Htl).
  pose proof (fresh_not_in_chain malloc m _ l Hc Hm Hfr) as Hp1l.
  assert (Tail r <> malloc m) as Hne1 by (intros E; apply Hp1l; by rewrite <- E).
  pose proof (first_match_absent _ _ _ _ Hc Hf) as Hff.
  pose proof (first_match_absent _ _ _ _ Hc Hg) as Hfg.
  assert (length l < fuel) as Hfuel0 by lia.
  pose proof (TaskRegister_body_new_append malloc uninit m r l f tf sf fuel tl
                Hc Hfuel0 Hff Hh Hm Htn Hne1 Htl) as Hb1.
  apply TaskRegister_of_body in Hb1. rewrite Hb1 in H1.
  injection H1 as <- <-.
  set (p1 := malloc m) in *.
  set (new1 := mkTask f tf sf 0 0 0 NULL) in *.
  set (m0 := <[p1 := Live new1]> m) in *.
  set (m1 := <[Tail r := Live (set_Next p1 tl)]> m0) in *.
  assert (chain m1 (Head r) (l ++ [p1])) as Hc1 by (by apply chain_snoc).
  assert (chain m0 (Head r) l) as Hc0 by (by apply chain_insert_other).
  assert (m0 !! Tail r = Some (Live tl)) as Htl0
    by (unfold m0; by rewrite lookup_insert_ne).
  set (p2 := malloc m1) in *.
  set (new2 := mkTask g tg sg 0 0 0 NULL).
  pose proof (fresh_not_in_chain malloc m1 _ _ Hc1 Hm1 Hfr1) as Hp2l1.
  fold p2 in Hp2l1.
  assert (p2 ∉ l) as Hp2l.
  { intros H. apply Hp2l1, elem_of_app. by left. }
  assert (p1 <> p2) as Hp12.
  { intros E. apply Hp2l1, elem_of_app. right. rewrite E. left. }
  assert (Tail r <> p2) as Hne2 by (intros E; apply Hp2l; by rewrite <- E).
  assert (m1 !! Tail r = Some (Live (set_Next p1 tl))) as Htl1
    by apply lookup_insert_eq.
  assert (forall q, q ∈ l -> Function <$> task_at m1 q = Function <$> task_at m q)
    as Hfun1.
  { intros q Hq. unfold m1, m0. rewrite link_keeps_functions; [done|done|].
    intros ->. done. }
  assert (m1 !! p1 = Some (Live new1)) as Hp1m1.
  { unfold m1, m0. rewrite lookup_insert_ne; [|done]. apply lookup_insert_eq. }
  assert (forall q, q ∈ l -> exists t, m1 !! q = Some (Live t)) as Hlive1.
  { intros q Hq. apply (chain_live m1 _ (l ++ [p1]) q Hc1).
    apply elem_of_app. by left. }
  assert (first_match m1 g (l ++ [p1]) = NULL) as Hfg1.
  { rewrite (first_match_app_other m1 g l p1 new1); [|done|done|simpl; congruence].
    by rewrite (first_match_agree m m1 g l Hfun1). }
  assert (length (l ++ [p1]) < fuel) as Hfuel1
    by (rewrite length_app; simpl; lia).
  pose proof (TaskRegister_body_new_append malloc uninit m1 r (l ++ [p1]) g tg sg
                fuel (set_Next p1 tl) Hc1 Hfuel1 Hfg1 Hh Hm1 Htn Hne2 Htl1) as Hb2.
  fold p2 in Hb2. fold new2 in Hb2.
  assert (<[Tail r := Live (set_Next p2 (set_Next p1 tl))]> (<[p2 := Live new2]> m1)
          = <[Tail r := Live (set_Next p2 tl)]> (<[p2 := Live new2]> m0)) as Em2.
  { unfold m1. rewrite (insert_insert_ne _ p2 (Tail r)); [|done].
    by rewrite insert_insert_eq. }
  rewrite Em2 in Hb2.
  set (m2 := <[Tail r := Live (set_Next p2 tl)]> (<[p2 := Live new2]> m0)) in *.
  assert (chain m2 (Head r) (l ++ [p2])) as Hc2 by (by apply chain_snoc).
  assert (forall q, q ∈ l -> Function <$> task_at m2 q = Function <$> task_at m q)
    as Hfun2.
  { intros q Hq. unfold m2. rewrite link_keeps_functions; [|done|intros ->; done].
    unfold m0, task_at. rewrite lookup_insert_ne; [done|]. intros ->. done. }
  assert (m2 !! p2 = Some (Live new2)) as Hp2m2.
  { unfold m2. rewrite lookup_insert_ne; [|done]. apply lookup_insert_eq. }
  assert (forall q, q ∈ l -> exists t, m2 !! q = Some (Live t)) as Hlive2.
  { intros q Hq. apply (chain_live m2 _ (l ++ [p2]) q Hc2).
    apply elem_of_app. by left. }
  assert (length (l ++ [p2]) < fuel) as Hfuel2
    by (rewrite length_app; simpl; lia).
  exists p2, m2.
  split; [by eapply TaskRegister_of_body|].
  split; [done|]. split; [done|]. split; [done|].
  split.
  { intros H. apply elem_of_app in H as [H|H]; [done|].
    apply list_elem_of_singleton in H. done. }
  split.
  { unfold m2. rewrite lookup_insert_ne; [|done].
    rewrite lookup_insert_ne; [|done]. apply lookup_insert_eq. }
  split.
  { rewrite (TaskFind_chain m1 r _ f fuel Hc1 Hfuel1). f_equal.
    apply (first_match_snoc m1 f l p1 new1); [|done|done].
    intros q Hq. destruct (Hlive1 q Hq) as (t & Hqt). exists t. split; [done|].
    pose proof (Hfun1 q Hq) as E. unfold task_at in E. rewrite Hqt in E.
    destruct (m !! q) as [[tq|]|] eqn:Hmq; simpl in E; try discriminate.
    injection E as E. rewrite E. by apply (not_registered m l f q tq). }
  split.
  { rewrite (TaskFind_chain m2 r _ f fuel Hc2 Hfuel2). f_equal.
    rewrite (first_match_app_other m2 f l p2 new2); [|done|done|simpl; congruence].
    by rewrite (first_match_agree m m2 f l Hfun2). }
  rewrite (TaskFind_chain m2 r _ g fuel Hc2 Hfuel2). f_equal.
  apply (first_match_snoc m2 g l p2 new2); [|done|done].
  intros q Hq. destruct (Hlive2 q Hq) as (t & Hqt). exists t. split; [done|].
  pose proof (Hfun2 q Hq) as E. unfold task_at in E. rewrite Hqt in E.
  destruct (m !! q) as [[tq|]|] eqn:Hmq; simpl in E; try discriminate.
  injection E as E. rewrite E. by apply (not_registered m l g q tq).
Qed.

Lemma TaskRegister_second_insert_unlinks_first_witness :
  chain heap1 (Head reg1) [1%N] /\ tail_ok reg1 [1%N] /\ Head reg1 <> NULL /\
  (7%N ∉ funcs heap1 [1%N]) /\ (8%N ∉ funcs heap1 [1%N]) /\ 8%N <> 7%N /\
  length [1%N] + 1 < 3 /\
  malloc34 heap1 <> NULL /\ malloc_fresh malloc34 heap1 /\
  TaskRegister malloc34 junk 3 reg1 7 100 true heap1
  = Ok 3%N (<[1%N := Live (set_Next 3 (sample_task 5 NULL))]>
              (<[3%N := Live (mkTask 7 100 true 0 0 0 NULL)]> heap1)) /\
  exists p2 (m2 : mem),
    TaskRegister malloc34 junk 3 reg1 8 200 true
      (<[1%N := Live (set_Next 3 (sample_task 5 NULL))]>
         (<[3%N := Live (mkTask 7 100 true 0 0 0 NULL)]> heap1)) = Ok p2 m2 /\
    chain (<[1%N := Live (set_Next 3 (sample_task 5 NULL))]>
             (<[3%N := Live (mkTask 7 100 true 0 0 0 NULL)]> heap1))
          (Head reg1) ([1%N] ++ [3%N]) /\
    chain m2 (Head reg1) ([1%N] ++ [p2]) /\
    3%N <> p2 /\ (3%N ∉ [1%N] ++ [p2]) /\
    m2 !! 3%N = Some (Live (mkTask 7 100 true 0 0 0 NULL)) /\
    TaskFind 3 reg1 7
      (<[1%N := Live (set_Next 3 (sample_task 5 NULL))]>
         (<[3%N := Live (mkTask 7 100 true 0 0 0 NULL)]> heap1))
    = Ok 3%N (<[1%N := Live (set_Next 3 (sample_task 5 NULL))]>
                (<[3%N := Live (mkTask 7 100 true 0 0 0 NULL)]> heap1)) /\
    TaskFind 3 reg1 7 m2 = Ok NULL m2 /\
    TaskFind 3 reg1 8 m2 = Ok p2 m2.
Proof.
  set (m1 := <[1%N := Live (set_Next 3 (sample_task 5 NULL))]>
               (<[3%N := Live (mkTask 7 100 true 0 0 0 NULL)]> heap1)).
  assert (chain heap1 (Head reg1) [1%N]) as Hc
    by (apply (walk_chain _ _ _ 5); reflexivity).
  assert (tail_ok reg1 [1%N]) as Ht by (intros _; reflexivity).
  assert (Head reg1 <> NULL) as Hh by done.
  assert (7%N ∉ funcs heap1 [1%N]) as Hf
    by (apply (bool_decide_unpack _); vm_compute; exact I).
  assert (8%N ∉ funcs heap1 [1%N]) as Hg
    by (apply (bool_decide_unpack _); vm_compute; exact I).
  assert (8%N <> 7%N) as Hgf by done.
  assert (length [1%N] + 1 < 3) as Hfuel by (simpl; lia).
  assert (malloc34 heap1 <> NULL) as Hm by (vm_compute; discriminate).
  assert (malloc_fresh malloc34 heap1) as Hfr
    by (intros _ t; vm_compute; discriminate).
  assert (TaskRegister malloc34 junk 3 reg1 7 100 true heap1 = Ok 3%N m1) as H1
    by reflexivity.
  assert (malloc34 m1 <> NULL) as Hm1 by (vm_compute; discriminate).
  assert (malloc_fresh malloc34 m1) as Hfr1
    by (intros _ t; vm_compute; discriminate).
  do 10 (split; [done|]).
  exact (TaskRegister_second_insert_unlinks_first malloc34 junk heap1 m1 reg1
           [1%N] 7%N 8%N 100%Z true 200%Z true 3 3%N
           Hc Ht Hh Hf Hg Hgf Hfuel Hm Hfr H1 Hm1 Hfr1).
Defined.



Lemma prev_in_snoc (p prev : ptr) (l : list ptr) :
  p ∉ l -> prev_in p prev (l ++ [p]) = default prev (last l).
Proof.
  revert prev. induction l as [|a l IH]; intros prev Hp.
  - simpl. by destruct (decide (p = p)).
  - change ((a :: l) ++ [p]) with (a :: (l ++ [p])). simpl prev_in.
    destruct (decide (a = p)) as [->|Hne]; [exfalso; apply Hp; left|].
    rewrite IH; [|intros H; apply Hp; by right].
    destruct l as [|b l]; [done|]. rewrite last_cons_cons.
    destruct (last (b :: l)) eqn:E; [done|]. by apply last_None in E.
Qed.

(** X13: after a successful insertion on a non-empty registry whose
    [Tail] is its last node, [GetPrev] of the returned handle is the node
    that was last before the call, which is the caller's [Tail]. *)
Theorem GetPrev_of_inserted_task
    malloc uninit (m : mem) r l func timeMs state fuel :
  chain m (Head r) l -> tail_ok r l -> Head r <> NULL ->
  (func ∉ funcs m l) -> length l < fuel ->
  malloc m <> NULL -> malloc_fresh malloc m ->
  exists task (m' : mem),
    TaskRegister malloc uninit fuel r func timeMs state m = Ok task m' /\
    task <> NULL /\
    GetPrev (S fuel) r task m' = Ok (Tail r) m'.
Proof.
  intros Hc Ht Hh Hnin Hf Hm Hfr.
  destruct (tail_live _ _ _ Hc Ht Hh) as (Hlast & _).
  pose proof (fresh_not_in_chain malloc m _ l Hc Hm Hfr) as Hpl.
  destruct (TaskRegister_new_cases malloc uninit m r l func timeMs state fuel
              Hc Ht Hnin Hf Hm Hfr) as (r' & m' & Hb & _ & _ & _ & Hne).
  destruct (Hne Hh) as (_ & Hc' & _).
  exists (malloc m), m'. split; [by eapply TaskRegister_of_body|].
  split; [done|]. unfold GetPrev.
  rewrite (GetPrev_loop_chain m' (malloc m) (Head r) NULL (l ++ [malloc m]) (S fuel) Hc').
  2:{ rewrite length_app. simpl. lia. }
  rewrite prev_in_snoc; [|done]. by rewrite Hlast.
Qed.

Lemma GetPrev_of_inserted_task_witness :
  chain heap2 (Head reg2) [1%N; 2%N] /\ tail_ok reg2 [1%N; 2%N] /\
  Head reg2 <> NULL /\ (7%N ∉ funcs heap2 [1%N; 2%N]) /\
  length [1%N; 2%N] < 3 /\ malloc3 heap2 <> NULL /\ malloc_fresh malloc3 heap2 /\
  exists task (m' : mem),
    TaskRegister malloc3 junk 3 reg2 7 100 true heap2 = Ok task m' /\
    task <> NULL /\
    GetPrev 4 reg2 task m' = Ok (Tail reg2) m'.
Proof.
  assert (chain heap2 (Head reg2) [1%N; 2%N]) as Hc
    by (apply (walk_chain _ _ _ 5); reflexivity).
  assert (tail_ok reg2 [1%N; 2%N]) as Ht by (intros _; reflexivity).
  assert (Head reg2 <> NULL) as Hh by done.
  assert (7%N ∉ funcs heap2 [1%N; 2%N]) as Hnin
    by (apply (bool_decide_unpack _); vm_compute; exact I).
  assert (length [1%N; 2%N] < 3) as Hf by (simpl; lia).
  assert (malloc3 heap2 <> NULL) as Hm by (vm_compute; discriminate).
  assert (malloc_fresh malloc3 heap2) as Hfr
    by (intros _ t; vm_compute; discriminate).
  do 7 (split; [done|]).
  exact (GetPrev_of_inserted_task malloc3 junk heap2 reg2 [1%N; 2%N]
           7%N 100%Z true 3 Hc Ht Hh Hnin Hf Hm Hfr).
Defined.

(** X14: the frame of an insertion.  On a registry whose sequence is [l]
    and whose [Tail] is its last node, a successful [TaskRegister] of an
    unregistered identity changes two cells at most: the fresh block, and
    on a non-empty registry the old last node, of which only [Next] changes.
    Every other cell of the heap is as before. *)
Theorem TaskRegister_insert_frame
    malloc uninit (m : mem) r l func timeMs state fuel :
  chain m (Head r) l -> tail_ok r l -> (func ∉ funcs m l) -> length l < fuel ->
  malloc m <> NULL -> malloc_fresh malloc m ->
  exists m' : mem,
    TaskRegister malloc uninit fuel r func timeMs state m = Ok (malloc m) m' /\
    (forall q, q <> malloc m -> q <> Tail r -> m' !! q = m !! q) /\
    (Head r = NULL -> forall q, q <> malloc m -> m' !! q = m !! q) /\
    (Head r <> NULL ->
       exists tl, m !! Tail r = Some (Live tl) /\
                  m' !! Tail r = Some (Live (set_Next (malloc m) tl))).
Proof.
  intros Hc Ht Hnin Hf Hm Hfr.
  pose proof (first_match_absent _ _ _ _ Hc Hnin) as Hfm.
  pose proof (fresh_not_in_chain malloc m _ l Hc Hm Hfr) as Hpl.
  destruct (decide (Head r = NULL)) as [Hh|Hh].
  - eexists. split.
    { eapply TaskRegister_of_body.
      apply TaskRegister_body_new_empty; [done|lia|done]. }
    split; [|split; [|done]].
    + intros q Hq _. by apply lookup_insert_ne.
    + intros _ q Hq. by apply lookup_insert_ne.
  - destruct (tail_live _ _ _ Hc Ht Hh) as (Hlast & Hin & Htn & tl & Htl).
    assert (Tail r <> malloc m) as Hne by (intros E; apply Hpl; by rewrite <- E).
    eexists. split.
    { eapply TaskRegister_of_body. by eapply TaskRegister_body_new_append. }
    split; [|split; [done|]].
    + intros q Hq1 Hq2. rewrite lookup_insert_ne; [|done].
      by apply lookup_insert_ne.
    + intros _. exists tl. split; [done|]. apply lookup_insert_eq.
Qed.

Lemma TaskRegister_insert_frame_witness :
  chain heap2 (Head reg2) [1%N; 2%N] /\ tail_ok reg2 [1%N; 2%N] /\
  (7%N ∉ funcs heap2 [1%N; 2%N]) /\ length [1%N; 2%N] < 3 /\
  malloc3 heap2 <> NULL /\ malloc_fresh malloc3 heap2 /\
  exists m' : mem,
    TaskRegister malloc3 junk 3 reg2 7 100 true heap2 = Ok (malloc3 heap2) m' /\
    (forall q, q <> malloc3 heap2 -> q <> Tail reg2 -> m' !! q = heap2 !! q) /\
    (Head reg2 = NULL -> forall q, q <> malloc3 heap2 -> m' !! q = heap2 !! q) /\
    (Head reg2 <> NULL ->
       exists tl, heap2 !! Tail reg2 = Some (Live tl) /\
                  m' !! Tail reg2 = Some (Live (set_Next (malloc3 heap2) tl))).
Proof.
  assert (chain heap2 (Head reg2) [1%N; 2%N]) as Hc
    by (apply (walk_chain _ _ _ 5); reflexivity).
  assert (tail_ok reg2 [1%N; 2%N]) as Ht by (intros _; reflexivity).
  assert (7%N ∉ funcs heap2 [1%N; 2%N]) as Hnin
    by (apply (bool_decide_unpack _); vm_compute; exact I).
  assert (length [1%N; 2%N] < 3) as Hf by (simpl; lia).
  assert (malloc3 heap2 <> NULL) as Hm by (vm_compute; discriminate).
  assert (malloc_fresh malloc3 heap2) as Hfr
    by (intros _ t; vm_compute; discriminate).
  do 6 (split; [done|]).
  exact (TaskRegister_insert_frame malloc3 junk heap2 reg2 [1%N; 2%N]
           7%N 100%Z true 3 Hc Ht Hnin Hf Hm Hfr).
Defined.

(** ** A registry used through the functions alone *)

Lemma TaskRegister_on_empty malloc uninit (m : mem) r func timeMs state fuel :
  Head r = NULL ->
  exists p (m' : mem),
    TaskRegister malloc uninit (S fuel) r func timeMs state m = Ok p m'.
Proof.
  intros Hh. assert (chain m (Head r) []) as Hc by done.
  destruct (decide (malloc m = NULL)) as [Hm|Hm].
  - exists NULL, m. eapply TaskRegister_of_body.
    eapply TaskRegister_body_oom; [done|simpl; lia|done|done].
  - eexists _, _. eapply TaskRegister_of_body.
    apply TaskRegister_body_new_empty; [done|lia|done].
Qed.

(** X15: a registry obtained from [ManagerCreate] never comes to hold a
    Task.  Whatever calls of [TaskRegister] the caller makes on it, with
    whatever allocator and on whatever heap, every call returns without a
    fault, and afterwards [TaskFind] still finds no identity, [GetPrev] has
    no predecessor to return and [ManagerDelete] releases nothing: the
    blocks that were allocated stay allocated. *)
Theorem created_registry_stays_empty
    malloc uninit r0 priorityEnable calls fuel (m : mem) :
  exists handles (m' : mem),
    register_all malloc uninit (S fuel) (ManagerCreate r0 priorityEnable) calls m
    = Ok handles m' /\
    length handles = length calls /\
    (forall func,
       TaskFind (S fuel) (ManagerCreate r0 priorityEnable) func m' = Ok NULL m') /\
    (forall task,
       GetPrev (S fuel) (ManagerCreate r0 priorityEnable) task m' = Ok NULL m') /\
    ManagerDelete (S fuel) (ManagerCreate r0 priorityEnable) m' = Ok tt m'.
Proof.
  revert m. induction calls as [|[[func timeMs] state] calls IH]; intros m.
  - exists [], m. repeat split; reflexivity.
  - destruct (TaskRegister_on_empty malloc uninit m (ManagerCreate r0 priorityEnable)
                func timeMs state fuel eq_refl) as (p & m1 & H1).
    destruct (IH m1) as (hs & m' & Hr & Hlen & Hfind & Hprev & Hdel).
    exists (p :: hs), m'. split.
    { cbn [register_all]. rewrite (bind_Ok _ _ _ _ _ H1).
      by rewrite (bind_Ok _ _ _ _ _ Hr). }
    split; [simpl; by rewrite Hlen|]. done.
Qed.

(** ** After teardown *)

(** X16: [ManagerDelete] cannot reset the caller's [Head].  After the
    teardown of a non-empty registry the caller's registry still points at
    the released nodes, and the next [TaskFind], [TaskRegister] or
    [ManagerDelete] on it, and [GetPrev] for any node but the head, reads a
    freed block. *)
Theorem registry_dangles_after_ManagerDelete
    malloc uninit (m : mem) r l fuel :
  chain m (Head r) l -> l <> [] -> length l < fuel ->
  exists m' : mem,
    ManagerDelete fuel r m = Ok tt m' /\
    (forall func fuel',
       TaskFind (S fuel') r func m' = Fault UseAfterFree) /\
    (forall func timeMs state fuel',
       TaskRegister malloc uninit (S fuel') r func timeMs state m'
       = Fault UseAfterFree) /\
    (forall fuel', ManagerDelete (S fuel') r m' = Fault UseAfterFree) /\
    (forall task fuel', task <> Head r ->
       GetPrev (S fuel') r task m' = Fault UseAfterFree).
Proof.
  intros Hc Hl Hf. exists (release l m).
  split; [by apply ManagerDelete_loop_chain|].
  destruct l as [|a l]; [done|].
  assert (release (a :: l) m !! a = Some Freed) as Hfreed
    by (apply release_lookup; left).
  destruct Hc as (Ea & Hn & _). rewrite Ea in *.
  assert (forall A (k : Task_t -> M A),
            bind (load a) k (release (a :: l) m) = Fault UseAfterFree) as Hload.
  { intros A k. unfold bind, load. destruct (decide (a = NULL)); [done|].
    by rewrite Hfreed. }
  assert (forall func fuel',
            TaskFind (S fuel') r func (release (a :: l) m) = Fault UseAfterFree)
    as Hfind.
  { intros func fuel'. unfold TaskFind. rewrite Ea. simpl TaskFind_loop.
    destruct (decide (a = NULL)); [done|]. apply Hload. }
  split; [done|]. split; [|split].
  - intros func timeMs state fuel'.
    unfold TaskRegister, TaskRegister_body. unfold bind at 1. unfold bind at 1.
    by rewrite Hfind.
  - intros fuel'. unfold ManagerDelete. rewrite Ea. simpl ManagerDelete_loop.
    destruct (decide (a = NULL)); [done|]. apply Hload.
  - intros task fuel' Ht. unfold GetPrev. rewrite Ea. simpl GetPrev_loop.
    destruct (decide (a = NULL)); [done|].
    destruct (decide (a = task)); [done|]. apply Hload.
Qed.

Lemma registry_dangles_after_ManagerDelete_witness :
  chain heap2 (Head reg2) [1%N; 2%N] /\ [1%N; 2%N] <> [] /\
  length [1%N; 2%N] < 3 /\
  exists m' : mem,
    ManagerDelete 3 reg2 heap2 = Ok tt m' /\
    (forall func fuel',
       TaskFind (S fuel') reg2 func m' = Fault UseAfterFree) /\
    (forall func timeMs state fuel',
       TaskRegister malloc3 junk (S fuel') reg2 func timeMs state m'
       = Fault UseAfterFree) /\
    (forall fuel', ManagerDelete (S fuel') reg2 m' = Fault UseAfterFree) /\
    (forall task fuel', task <> Head reg2 ->
       GetPrev (S fuel') reg2 task m' = Fault UseAfterFree).
Proof.
  assert (chain heap2 (Head reg2) [1%N; 2%N]) as Hc
    by (apply (walk_chain _ _ _ 5); reflexivity).
  assert ([1%N; 2%N] <> []) as Hl by done.
  assert (length [1%N; 2%N] < 3) as Hf by (simpl; lia).
  split; [exact Hc|]. split; [exact Hl|]. split; [exact Hf|].
  exact (registry_dangles_after_ManagerDelete malloc3 junk heap2 reg2
           [1%N; 2%N] 3 Hc Hl Hf).
Defined.

(** ** Teardown of a cyclic sequence *)

Lemma segment_insert_other (m : mem) p l q a c :
  segment m p l q -> a ∉ l -> segment (<[a := c]> m) p l q.
Proof.
  revert p. induction l as [|b l IH]; intros p Hs Ha; [done|].
  destruct Hs as (-> & Hn & t & Ht & Hs).
  split; [done|]. split; [done|]. exists t. split.
  - rewrite lookup_insert_ne; [done|]. intros ->. apply Ha. left.
  - apply IH; [done|]. intros H. apply Ha. by right.
Qed.

Lemma segment_not_null (m : mem) p l q a :
  segment m p l q -> a ∈ l -> a <> NULL.
Proof.
  revert p. induction l as [|b l IH]; intros p Hs Ha.
  - by apply elem_of_nil in Ha.
  - destruct Hs as (-> & Hn & t & Ht & Hs).
    apply elem_of_cons in Ha as [->|Ha]; [done|]. by eapply IH.
Qed.

(** Along a segment of distinct nodes the loop of [ManagerDelete] frees
    the nodes one by one and goes on from where the segment ends. *)
Lemma ManagerDelete_loop_segment l : forall (m : mem) p q k,
  segment m p l q -> NoDup l ->
  ManagerDelete_loop (length l + k) p m = ManagerDelete_loop k q (release l m).
Proof.
  induction l as [|a l IH]; intros m p q k Hs Hnd.
  - simpl in Hs. by subst.
  - destruct Hs as (-> & Hn & t & Ht & Hs).
    apply NoDup_cons in Hnd as [Ha Hnd].
    change (length (a :: l) + k) with (S (length l + k)).
    cbn [ManagerDelete_loop].
    destruct (decide (a = NULL)); [done|].
    rewrite (bind_Ok _ _ _ _ _ (load_live a t m Hn Ht)).
    rewrite (bind_Ok _ _ _ _ _ (free_live a t m Hn Ht)).
    rewrite release_cons. apply IH; [|done].
    by apply segment_insert_other.
Qed.

(** X17: the teardown of a cyclic sequence is a use after free.  When the
    [Next] links from [Head] run through the distinct live nodes [l] and
    then lead back to one of them, [ManagerDelete] frees every node of [l]
    and then reads the released node that the last link points to. *)
Theorem ManagerDelete_faults_on_a_cycle (m : mem) r l q fuel :
  segment m (Head r) l q -> NoDup l -> q ∈ l -> length l < fuel ->
  ManagerDelete fuel r m = Fault UseAfterFree.
Proof.
  intros Hs Hnd Hq Hf. unfold ManagerDelete.
  assert (fuel = length l + S (fuel - length l - 1)) as -> by lia.
  rewrite (ManagerDelete_loop_segment l m (Head r) q _ Hs Hnd).
  cbn [ManagerDelete_loop].
  pose proof (segment_not_null _ _ _ _ _ Hs Hq) as Hn.
  destruct (decide (q = NULL)); [done|].
  unfold bind, load. destruct (decide (q = NULL)); [done|].
  by rewrite (release_lookup l m q Hq).
Qed.

Lemma ManagerDelete_faults_on_a_cycle_witness :
  segment heap_cycle (Head reg1) [1%N; 2%N] 1%N /\ NoDup [1%N; 2%N] /\
  1%N ∈ [1%N; 2%N] /\ length [1%N; 2%N] < 3 /\
  ManagerDelete 3 reg1 heap_cycle = Fault UseAfterFree.
Proof.
  assert (segment heap_cycle (Head reg1) [1%N; 2%N] 1%N) as Hs.
  { split; [reflexivity|]. split; [done|]. eexists. split; [reflexivity|].
    split; [reflexivity|]. split; [done|]. eexists. split; reflexivity. }
  assert (NoDup [1%N; 2%N]) as Hnd
    by (apply (bool_decide_unpack _); vm_compute; exact I).
  assert (1%N ∈ [1%N; 2%N]) as Hq
    by (apply (bool_decide_unpack _); vm_compute; exact I).
  assert (length [1%N; 2%N] < 3) as Hf by (simpl; lia).
  do 4 (split; [done|]).
  exact (ManagerDelete_faults_on_a_cycle heap_cycle reg1 [1%N; 2%N] 1%N 3
           Hs Hnd Hq Hf).
Defined.

End Facts.
